(** * A shallow embedding of the drift audit and unused-module detector of ducku_cli

    The Python sources embedded here are
    - [src/core/project.py]            (the existence resolver, [Project]),
    - [src/core/documentation.py]      ([Source], [DocPart], [Documentation]),
    - [src/use_cases/pattern_search.py] (pattern rules, extraction, report),
    - [src/use_cases/unused_modules.py] (module catalog, import closure,
                                         unused-module resolver, report).

    Python [str] values are Rocq [string]s (one 8-bit character per code
    point), [pathlib] paths are lists of their [parts], Python sets of
    strings are [gset string], and Python dicts whose insertion order is
    observable are association lists. *)

From Stdlib Require Import Strings.String Strings.Ascii DecimalString Sorting.Sorted.
From stdpp Require Import base list gmap sets strings.

(* ------------------------------------------------------------------ *)
(** ** Python string primitives *)

Module Py.

(** [s.split(c)] for a one-character separator [c]: never empty, keeps
    empty fields. *)
Fixpoint split (c : ascii) (s : string) : list string :=
  match s with
  | EmptyString => [""%string]
  | String a s' =>
      let r := split c s' in
      if Ascii.eqb a c then ""%string :: r
      else match r with
           | x :: xs => String a x :: xs
           | [] => [String a EmptyString]
           end
  end.

(** [sep.join(l)]. *)
Definition join (sep : string) (l : list string) : string :=
  String.concat sep l.

(** [sub in s]. *)
Fixpoint contains (sub s : string) : bool :=
  String.prefix sub s ||
  match s with
  | EmptyString => false
  | String _ s' => contains sub s'
  end.

(** [s.startswith(p)]. *)
Definition startswith (s p : string) : bool := String.prefix p s.

(** [s.endswith(suf)]. *)
Fixpoint endswith (s suf : string) : bool :=
  String.eqb s suf ||
  match s with
  | EmptyString => false
  | String _ s' => endswith s' suf
  end.

(** [str.lower] on the ASCII letters. *)
Definition lower_char (c : ascii) : ascii :=
  let n := nat_of_ascii c in
  if (65 <=? n) && (n <=? 90) then ascii_of_nat (n + 32) else c.

Fixpoint lower (s : string) : string :=
  match s with
  | EmptyString => EmptyString
  | String a s' => String (lower_char a) (lower s')
  end.

(** [s.lstrip(c)] for one character. *)
Fixpoint lstrip (c : ascii) (s : string) : string :=
  match s with
  | String a s' => if Ascii.eqb a c then lstrip c s' else s
  | EmptyString => EmptyString
  end.

(** [s.rfind(c)], with [None] for Python's [-1]. *)
Fixpoint rfind (c : ascii) (s : string) : option nat :=
  match s with
  | EmptyString => None
  | String a s' =>
      match rfind c s' with
      | Some i => Some (S i)
      | None => if Ascii.eqb a c then Some 0 else None
      end
  end.

(** [s[:n]] and [s[n:]] for [0 <= n]. *)
Definition take (n : nat) (s : string) : string := String.substring 0 n s.
Definition drop (n : nat) (s : string) : string :=
  String.substring n (String.length s - n) s.

(** [l[-k:]]: the last [k] elements; [l[-0:]] is the whole list. *)
Definition tail_slice {A} (k : nat) (l : list A) : list A :=
  if Nat.eqb k 0 then l else skipn (length l - k) l.

(** [len(s)] of a list, and [str(n)]. *)
Definition str_of_nat (n : nat) : string :=
  NilEmpty.string_of_uint (Nat.to_uint n).

(** [s.rstrip(c)] and [s.strip(c)] for one character. *)
Fixpoint rstrip (c : ascii) (s : string) : string :=
  match s with
  | EmptyString => EmptyString
  | String a s' =>
      let r := rstrip c s' in
      if String.eqb r "" && Ascii.eqb a c then "" else String a r
  end.

Definition strip (c : ascii) (s : string) : string := rstrip c (lstrip c s).

(** [ord(c) < 32 and c not in '\n\r\t']. *)
Definition is_control (c : ascii) : bool :=
  (nat_of_ascii c <? 32) &&
  negb (Ascii.eqb c "010"%char || Ascii.eqb c "013"%char || Ascii.eqb c "009"%char).

(** [sum(1 for c in s if ord(c) < 32 and c not in '\n\r\t')]. *)
Definition count_control (s : string) : nat :=
  List.length (List.filter is_control (list_ascii_of_string s)).

End Py.

(* ------------------------------------------------------------------ *)
(** ** [pathlib] paths as lists of parts *)

Module PPath.

(** A path is the tuple [p.parts]; an absolute POSIX path starts with the
    part ["/"]. *)
Abbreviation path := (list string).

(** [p.name]: the last part, unless it is the anchor. *)
Definition name (p : path) : string :=
  match last p with
  | Some x => if String.eqb x "/" then "" else x
  | None => ""
  end.

(** [p.suffix] and [p.stem] (CPython 3.12 [PurePath]). *)
Definition suffix_of_name (nm : string) : string :=
  match Py.rfind "." nm with
  | Some i => if (0 <? i) && (i <? String.length nm - 1) then Py.drop i nm else ""
  | None => ""
  end.

Definition stem_of_name (nm : string) : string :=
  match Py.rfind "." nm with
  | Some i => if (0 <? i) && (i <? String.length nm - 1) then Py.take i nm else nm
  | None => nm
  end.

Definition suffix (p : path) : string := suffix_of_name (name p).
Definition stem (p : path) : string := stem_of_name (name p).

(** [p.parent]. *)
Definition parent (p : path) : path :=
  match p with
  | [x] => if String.eqb x "/" then p else []
  | _ => removelast p
  end.

(** [Path(s)] for a string with no leading slash: empty and ["."]
    components are dropped. *)
Definition of_relative_string (s : string) : path :=
  filter (fun x => negb (String.eqb x "") && negb (String.eqb x ".")) (Py.split "/" s).

(** [Path(s)] for any string: a leading slash gives the anchor ["/"]. *)
Definition of_string (s : string) : path :=
  if Py.startswith s "/" then "/"%string :: of_relative_string s
  else of_relative_string s.

(** [a / s] for a string [s]: an absolute [s] replaces [a]. *)
Definition div (a : path) (s : string) : path :=
  match of_string s with
  | x :: rest => if String.eqb x "/" then x :: rest else a ++ x :: rest
  | [] => a
  end.

(** [str(p)]. *)
Definition to_string (p : path) : string :=
  match p with
  | [] => "."
  | x :: rest => if String.eqb x "/" then "/" +:+ Py.join "/" rest else Py.join "/" p
  end.

(** [p.relative_to(root)]; [None] is the [ValueError] it raises. *)
Fixpoint relative_to (p root : path) : option path :=
  match root, p with
  | [], _ => Some p
  | r :: root', x :: p' => if String.eqb r x then relative_to p' root' else None
  | _ :: _, [] => None
  end.

End PPath.

(* ------------------------------------------------------------------ *)
(** ** Documents and the project ([documentation.py], [project.py]) *)

Import PPath.

(** The file system as the code observes it: [Path.exists], [is_dir],
    [is_file], [resolve(strict=False)], [read_text] and the files that
    [os.walk] yields under a directory, in walk order. *)
Record FileSystem := {
  fs_exists : path -> bool;
  fs_is_dir : path -> bool;
  fs_is_file : path -> bool;
  fs_resolve : path -> path;
  fs_read_text : path -> string;
  fs_walk_files : path -> list path
}.

(** [Source]: [type], [doc_format] and the ["path"] entry of [metadata]
    (kept as the path it was rendered from). *)
Record Source := {
  src_type : string;
  src_format : string;
  src_meta_path : option path
}.

(** [Source.get_root]. A [Path] is always truthy, so [if source_root:]
    only tests for [None]. *)
Definition get_root (s : Source) : option path :=
  if String.eqb (src_type s) "file" then
    match src_meta_path s with
    | Some p => Some (parent p)
    | None => None
    end
  else None.

Inductive DocBody :=
| DocStringBody (content : string)
| DocFileBody (p : path).

Record DocPart := {
  dp_source : Source;
  dp_body : DocBody
}.

(** [DocString(content, doc_format)] and [DocFile(path)]. *)
Definition DocString (content fmt : string) : DocPart :=
  {| dp_source := {| src_type := "string"%string; src_format := fmt; src_meta_path := None |};
     dp_body := DocStringBody content |}.

Definition DocFile (p : path) : DocPart :=
  {| dp_source := {| src_type := "file"%string; src_format := Py.lower (suffix p);
                     src_meta_path := Some p |};
     dp_body := DocFileBody p |}.

Definition SUPPORTED_FORMATS : list string := [".md"; ".markdown"; "markdown"]%string.

(** [Project]: the fields the core reads. [project_files] is the file
    index produced by the file-system walker. *)
Record Project := {
  project_root : path;
  doc_paths : list path;
  project_files : list path;
  doc_parts : list DocPart
}.

(** The documentation settings of [.ducku.yaml] ([None] when absent). *)
Record Configuration := {
  documentation_paths : list string;
  documentation_paths_to_ignore : list string
}.

Section Filesystem.

Variable fs : FileSystem.

(** [DocPart.read]. *)
Definition read (dp : DocPart) : string :=
  match dp_body dp with
  | DocStringBody c => c
  | DocFileBody p => fs_read_text fs p
  end.

(** [Documentation.process_file], [process_folder], [from_project]. *)
Definition process_file (f : path) : list DocPart :=
  if bool_decide (Py.lower (suffix f) ∈ SUPPORTED_FORMATS) then [DocFile f] else [].

Definition process_folder (d : path) : list DocPart :=
  concat (map process_file (fs_walk_files fs d)).

Definition from_project (dpaths : list path) : list DocPart :=
  concat (map (fun p => if fs_is_file fs p then process_file p
                        else if fs_is_dir fs p then process_folder p else []) dpaths).

(** [Project.resolve_path_from_root]. *)
Definition resolve_path_from_root (root : path) (p : string) : path :=
  if Py.startswith p "/" then of_string p else root ++ of_string p.

(** [Project.__init__], given the parsed configuration and the files
    [FileSystemFolder.get_all_files] returns. *)
Definition project_init (root : path) (config : option Configuration)
    (files : list path) : Project :=
  let configured :=
    match config with
    | Some c => map (resolve_path_from_root root) (documentation_paths c) ++
                map (resolve_path_from_root root) (documentation_paths_to_ignore c)
    | None => []
    end in
  let dpaths :=
    fold_left (fun acc f =>
                 if Py.startswith (name f) "README" && negb (bool_decide (f ∈ acc))
                 then acc ++ [f] else acc) files configured in
  {| project_root := root; doc_paths := dpaths; project_files := files;
     doc_parts := from_project dpaths |}.

(** The documentation paths [Project.__init__] takes from the
    configuration, before the README files are added. *)
Definition configured_doc_paths (root : path) (config : option Configuration) : list path :=
  match config with
  | Some c => map (resolve_path_from_root root) (documentation_paths c) ++
              map (resolve_path_from_root root) (documentation_paths_to_ignore c)
  | None => []
  end.

(** [Project.contains_string]. *)
Definition contains_string (p : Project) (s : string) (_ : Source) : bool :=
  existsb (fun f => if bool_decide (f ∈ doc_paths p) then false
                    else Py.contains s (fs_read_text fs f))
          (project_files p).

(** [Project.contains_file]. *)
Definition contains_file (p : Project) (file_name : string) (source : Source) : bool :=
  let from_source :=
    match get_root source with
    | Some r => let sf := div r file_name in fs_exists fs sf && fs_is_file fs sf
    | None => false
    end in
  from_source || existsb (fun f => String.eqb (name f) file_name) (project_files p).

Definition OS_ROOT_PATHS : list string :=
  ["~/"; "/usr/"; "/opt/"; "/bin/"; "/mnt"; "/sbin/"; "/lib/"; "/etc/"; "/var/";
   "/tmp/"; "/home/"; "/root/"; "/path/to"; "/directory/";
   "C:\"; "D:\"; "E:\"; "F:\"; "G:\"; "H:\"; "I:\"; "J:\"; "K:\"; "L:\"; "M:\";
   "N:\"; "O:\"; "P:\"; "Q:\"; "R:\"; "S:\"; "T:\"; "U:\"; "V:\"; "W:\"; "X:\";
   "Y:\"; "Z:\";
   "C:/"; "D:/"; "E:/"; "F:/"; "G:/"; "H:/"; "I:/"; "J:/"; "K:/"; "L:/"; "M:/";
   "N:/"; "O:/"; "P:/"; "Q:/"; "R:/"; "S:/"; "T:/"; "U:/"; "V:/"; "W:/"; "X:/";
   "Y:/"; "Z:/"]%string.

Definition MOCK_FILENAME_PATTERNS : list string :=
  ["hello"; "my_"; "path_to"; "xxx"; "yyy"; "zzz"; "log_"; "log."; "logs.";
   "myfile"; "yourfile"]%string.
Definition MOCK_DIR_PATTERNS : list string :=
  ["/some-dir/"; "/some_dir/"; "/somedir/"]%string.
Definition MOCK_PATH_PATTERNS : list string :=
  ["/example.py"; "/example.js"; "/example.ts"; "/sample.py"; "/sample.js";
   "/sample.ts"]%string.

(** [Project.contains_path]. *)
Definition contains_path (p : Project) (pth : string) (source : Source) : bool :=
  if existsb (Py.startswith pth) OS_ROOT_PATHS then false else
  let cand := of_relative_string (Py.lstrip "/" pth) in
  let filename := Py.lower (name cand) in
  if existsb (fun excl => Py.contains excl filename) MOCK_FILENAME_PATTERNS then false else
  let path_lower := Py.lower pth in
  if existsb (fun pat => Py.contains pat path_lower) MOCK_DIR_PATTERNS then false else
  if existsb (Py.endswith path_lower) MOCK_PATH_PATTERNS then false else
  if Nat.eqb (length cand) 1 then contains_file p (name cand) source else
  let from_source :=
    match get_root source with
    | Some r => fs_exists fs (fs_resolve fs (r ++ cand))
    | None => false
    end in
  from_source ||
  fs_exists fs (fs_resolve fs (project_root p ++ cand)) ||
  existsb (fun d =>
             if fs_is_dir fs d then fs_exists fs (fs_resolve fs (d ++ cand))
             else if fs_is_file fs d then fs_exists fs (fs_resolve fs (parent d ++ cand))
             else false)
          (doc_paths p).

(** [Project._extract_route_path]: [re.match] of the pattern
    [https?://[^/]+] followed by the group ['/' .] repeated; the host is the longest run without ['/'] and must be non-empty, the
    group runs from the next ['/'] up to the first newline. *)
Fixpoint upto_newline (s : string) : string :=
  match s with
  | EmptyString => EmptyString
  | String a s' => if Ascii.eqb a "010"%char then EmptyString else String a (upto_newline s')
  end.

Fixpoint after_host (s : string) : option string :=
  match s with
  | EmptyString => None
  | String a s' => if Ascii.eqb a "/"%char then Some s else after_host s'
  end.

Definition extract_route_path (txt : string) : string :=
  let rest :=
    if Py.startswith txt "https://" then Some (Py.drop 8 txt)
    else if Py.startswith txt "http://" then Some (Py.drop 7 txt) else None in
  match rest with
  | Some (String a r) =>
      if Ascii.eqb a "/"%char then txt else
      match after_host r with
      | Some g => upto_newline g
      | None => txt
      end
  | _ => txt
  end.

Definition route_file_extensions : list string :=
  [".md"; ".txt"; ".html"; ".htm"; ".xml"; ".json"; ".yaml"; ".yml"; ".py"; ".js";
   ".ts"; ".go"; ".java"; ".rb"; ".css"; ".scss"]%string.

(** [Project.contains_route]. *)
Definition contains_route (p : Project) (route : string) (source : Source) : bool :=
  let route_path := extract_route_path route in
  if existsb (Py.endswith (Py.lower route_path)) route_file_extensions then true else
  if existsb (Py.startswith route_path) OS_ROOT_PATHS then true else
  let folder_hit :=
    if Py.startswith route_path "/" then
      match Py.split "/" (Py.strip "/" route_path) with
      | first_segment :: _ =>
          if String.eqb first_segment "" then false else
          let potential_folder := div (project_root p) first_segment in
          fs_exists fs potential_folder && fs_is_dir fs potential_folder
      | [] => false
      end
    else false in
  if folder_hit then true else contains_string p route_path source.

End Filesystem.

(* ------------------------------------------------------------------ *)
(** ** Python exceptions *)

Inductive PyExc := TypeError | ValueError | OtherError.

(** A Python call either returns or raises. *)
Inductive PyResult (A : Type) :=
| PyOk (a : A)
| PyErr (e : PyExc).
Arguments PyOk {A} a.
Arguments PyErr {A} e.

Definition py_bind {A B} (m : PyResult A) (k : A -> PyResult B) : PyResult B :=
  match m with
  | PyOk a => k a
  | PyErr e => PyErr e
  end.

Notation "x <- m ;; k" := (py_bind m (fun x => k))
  (at level 100, m at next level, right associativity).

(** A [for] loop whose body may raise: the first exception leaves the loop. *)
Fixpoint py_fold {A B} (f : B -> A -> PyResult B) (l : list A) (b : B) : PyResult B :=
  match l with
  | [] => PyOk b
  | x :: xs => b' <- f b x ;; py_fold f xs b'
  end.

(** Positional arguments of a method call. *)
Inductive Arg :=
| ArgStr (s : string)
| ArgSource (s : Source).

(** Calling a method declared [(self, x: str, source: Source)]: with another
    number of positional arguments Python raises [TypeError] (missing
    required positional argument) before the body runs. The code never
    passes two arguments of other types; that case is [OtherError]. *)
Definition call2 {A} (body : string -> Source -> A) (args : list Arg) : PyResult A :=
  match args with
  | [ArgStr s; ArgSource src] => PyOk (body s src)
  | [_; _] => PyErr OtherError
  | _ => PyErr TypeError
  end.

(* ------------------------------------------------------------------ *)
(** ** Pattern rules and extraction ([pattern_search.py]) *)

(** The regular expression of each rule (its text is in the source). *)
Inductive RegexId := UnixPathRe | WindowsPathRe | FilenameRe | TcpPortRe | EnvVarRe.

(** [SearchPattern(name, regex, filters)]. *)
Record SearchPattern := {
  sp_name : string;
  sp_regex : RegexId;
  sp_filters : list string
}.

Definition path_patterns : list SearchPattern :=
  [ {| sp_name := "Unix path"; sp_regex := UnixPathRe; sp_filters := ["not_mocked"] |};
    {| sp_name := "Windows path"; sp_regex := WindowsPathRe; sp_filters := [] |} ]%string.

Definition files_patterns : list SearchPattern :=
  [ {| sp_name := "Filename"; sp_regex := FilenameRe;
       sp_filters := ["file_not_in_url"; "file_not_in_exclusions"; "file_is_not_path"] |} ]%string.

Definition string_patterns : list SearchPattern :=
  [ {| sp_name := "TCP port"; sp_regex := TcpPortRe; sp_filters := ["is_port_context"] |};
    {| sp_name := "Environment variable"; sp_regex := EnvVarRe;
       sp_filters := ["is_env_var_context"; "contains_"] |} ]%string.

(** [Artifact(pattern, match, source)]. *)
Record Artifact := {
  art_pattern : SearchPattern;
  art_match : string;
  art_source : Source
}.

(** The values stored in the [cache] dict of [collect_docs_artifacts]. *)
Inductive CacheVal := CacheArtifact (a : Artifact) | CacheTrue.

Section Extraction.

Variable fs : FileSystem.

(** [[m.group(0) for m in pattern.find_all(dp)]]: the matches that
    [SearchPattern.find_all] yields for a document, regex and filter
    predicates applied, up to the first [UnicodeError], [ValueError] or
    [OSError] (which the loop catches before moving to the next document). *)
Variable find_all : SearchPattern -> DocPart -> list string.

(** The binary-content guard of a document. *)
Definition binary_content (content : string) : bool :=
  Py.contains (String "000"%char EmptyString) content ||
  (30 <? Py.count_control (Py.take 1000 content)).

(** The body of [for m in matches:]. *)
Definition visit_match (pattern : SearchPattern) (dp : DocPart)
    (st : list Artifact * gmap string CacheVal) (m : string)
    : list Artifact * gmap string CacheVal :=
  let '(artefacts, cache) := st in
  if 0 <? Py.count_control m then st else
  match cache !! m with
  | None =>
      let a := {| art_pattern := pattern; art_match := m; art_source := dp_source dp |} in
      (artefacts ++ [a], <[m := CacheTrue]> (<[m := CacheArtifact a]> cache))
  | Some _ => (artefacts, <[m := CacheTrue]> cache)
  end.

(** The body of [for dp in p.documentation.doc_parts:]. *)
Definition visit_doc (pattern : SearchPattern)
    (st : list Artifact * gmap string CacheVal) (dp : DocPart)
    : list Artifact * gmap string CacheVal :=
  if binary_content (read fs dp) then st
  else fold_left (visit_match pattern dp) (find_all pattern dp) st.

(** [collect_docs_artifacts(p, patterns)]. *)
Definition collect_docs_artifacts (p : Project) (patterns : list SearchPattern)
    : list Artifact :=
  fst (fold_left (fun st pattern => fold_left (visit_doc pattern) (doc_parts p) st)
                 patterns ([], ∅)).

(** [Source.get_source_identifier]. *)
Definition get_source_identifier (s : Source) : string :=
  if String.eqb (src_type s) "file" then
    match src_meta_path s with
    | Some p => to_string p
    | None => src_format s +:+ "(file)"
    end
  else if String.eqb (src_type s) "string" then src_format s +:+ "(string)"
  else src_format s +:+ "(" +:+ src_type s +:+ ")".

Definition drift_line (kind m : string) (src : Source) : string :=
  kind +:+ " '" +:+ m +:+ "' found in " +:+ get_source_identifier src +:+
  ", but nowhere in the project. Probably outdated artifact" +:+ String "010"%char EmptyString.

(** [pattern_search.report(p)]. Note the arguments of each call. *)
Definition report (p : Project) : PyResult string :=
  result <- py_fold (fun result a =>
              found <- call2 (contains_string fs p) [ArgStr (art_match a)] ;;
              PyOk (if found then result
                    else result +:+ drift_line "String" (art_match a) (art_source a)))
            (collect_docs_artifacts p string_patterns) "" ;;
  result <- py_fold (fun result a =>
              found <- call2 (contains_path fs p) [ArgStr (art_match a); ArgSource (art_source a)] ;;
              PyOk (if found then result
                    else result +:+ drift_line "Path" (art_match a) (art_source a)))
            (collect_docs_artifacts p path_patterns) result ;;
  py_fold (fun result a =>
             found <- call2 (contains_file fs p) [ArgStr (art_match a)] ;;
             PyOk (if found then result
                   else result +:+ drift_line "File" (art_match a) (art_source a)))
          (collect_docs_artifacts p files_patterns) result.

End Extraction.

(* ------------------------------------------------------------------ *)
(** ** The TCP-port regular expression of [string_patterns]

    The source pattern, applied without flags, is the lookbehind
    [(?:(?<=^)|(?<=[ :]))], then [(?:0|[1-9]\d{0,4})], then the negative
    lookahead [(?![.\w-])]. Below it is run as [re.finditer] does: scan
    left to right, try the alternatives in order with greedy backtracking,
    resume after each match. *)

Module TcpPort.

Definition is_digit (c : ascii) : bool :=
  let n := nat_of_ascii c in (48 <=? n) && (n <=? 57).

Definition is_word (c : ascii) : bool :=
  let n := nat_of_ascii c in
  is_digit c || ((65 <=? n) && (n <=? 90)) || ((97 <=? n) && (n <=? 122)) ||
  Ascii.eqb c "_"%char.

(** [(?<=^)|(?<=[ :])], given the character before the position. *)
Definition lookbehind_ok (prev : option ascii) : bool :=
  match prev with
  | None => true
  | Some c => Ascii.eqb c " "%char || Ascii.eqb c ":"%char
  end.

(** [(?![.\w-])], given the text after the match. *)
Definition lookahead_ok (rest : string) : bool :=
  match rest with
  | EmptyString => true
  | String c _ => negb (Ascii.eqb c "."%char || is_word c || Ascii.eqb c "-"%char)
  end.

(** How many of the next characters (at most [n]) are digits. *)
Fixpoint digit_run (n : nat) (s : string) : nat :=
  match n, s with
  | S n', String c s' => if is_digit c then S (digit_run n' s') else 0
  | _, _ => 0
  end.

(** [\d{0,4}] then the lookahead: try [j], [j-1], ..., [0] digits. *)
Fixpoint try_digits (j : nat) (rest : string) : option nat :=
  if lookahead_ok (Py.drop j rest) then Some j
  else match j with
       | 0 => None
       | S j' => try_digits j' rest
       end.

(** Length of the match starting here, if any (lookbehind checked apart). *)
Definition match_at (s : string) : option nat :=
  match s with
  | String c rest =>
      if Ascii.eqb c "0"%char then (if lookahead_ok rest then Some 1 else None)
      else if is_digit c then option_map S (try_digits (digit_run 4 rest) rest)
      else None
  | EmptyString => None
  end.

Fixpoint scan (fuel : nat) (prev : option ascii) (s : string) : list string :=
  match fuel with
  | 0 => []
  | S fuel' =>
      match s with
      | EmptyString => []
      | String c s' =>
          match (if lookbehind_ok prev then match_at s else None) with
          | Some n => Py.take n s :: scan fuel' (String.get (n - 1) s) (Py.drop n s)
          | None => scan fuel' (Some c) s'
          end
      end
  end.

(** [[m.group(0) for m in re.finditer(tcp_port_regex, s)]]. *)
Definition findall (s : string) : list string :=
  scan (S (String.length s)) None s.

(** The integer a string of decimal digits denotes. *)
Fixpoint digits_value_acc (acc : N) (s : string) : N :=
  match s with
  | EmptyString => acc
  | String c s' => digits_value_acc (10 * acc + (N_of_ascii c - 48))%N s'
  end.

Definition digits_value (s : string) : N := digits_value_acc 0%N s.

End TcpPort.

(* ------------------------------------------------------------------ *)
(** ** The unused-module detector ([unused_modules.py]) *)

(** A Python dict with string keys whose insertion order is observable:
    [d[k] = v] updates in place or appends. *)
Definition dict_set {V} (k : string) (v : V) (d : list (string * V)) : list (string * V) :=
  if existsb (fun kv => String.eqb kv.1 k) d
  then map (fun kv => if String.eqb kv.1 k then (k, v) else kv) d
  else d ++ [(k, v)].

(** [d.setdefault(k, []).append(x)], as the [by_extension] loop does it. *)
Definition dict_append {V} (k : string) (x : V) (d : list (string * list V))
    : list (string * list V) :=
  if existsb (fun kv => String.eqb kv.1 k) d
  then map (fun kv => if String.eqb kv.1 k then (k, kv.2 ++ [x]) else kv) d
  else d ++ [(k, [x])].

Module UnusedModules.

Section Detector.

(** [dispatcher.is_supported_format] and [collect_imports_from_content]:
    the per-language import extractor the core consumes. *)
Variable is_supported_format : string -> bool.
Variable collect_imports_from_content : path -> list string.

(** [self.project]. *)
Variable project : Project.

Definition common_src_dirs : list string := ["src"; "lib"; "app"; "source"; "code"]%string.

(** [UnusedModules.get_module_name_from_file]; [relative_to] raises
    [ValueError] for a path outside the root. *)
Definition get_module_name_from_file (file_path : path) : PyResult string :=
  let module_name := stem file_path in
  match relative_to file_path (project_root project) with
  | None => PyErr ValueError
  | Some relative_path =>
      let parts := removelast relative_path in
      let filtered_parts :=
        List.filter (fun part => negb (bool_decide (part ∈ common_src_dirs))) parts in
      match filtered_parts with
      | [] => PyOk module_name
      | _ :: _ => PyOk (Py.join "." (filtered_parts ++ [module_name]))
      end
  end.

Definition test_patterns : list string :=
  ["/test/"; "/tests/"; "/testing/"; "test_"; "_test."; ".test."; "spec_"; "_spec.";
   ".spec."]%string.

(** [UnusedModules.is_test_file]. *)
Definition is_test_file (file_path : path) : bool :=
  let file_str := Py.lower (to_string file_path) in
  existsb (fun pattern => Py.contains pattern file_str) test_patterns.

Definition entry_patterns : list string :=
  ["/bin/"; "/features/step_definitions/"; "/features/support/"; "/vendor/";
   "/packages/"]%string.

Definition entry_file_names : list string :=
  ["main.py"; "main.rb"; "main.js"; "main.ts"; "main.java";
   "index.py"; "index.rb"; "index.js"; "index.ts";
   "cli.py"; "cli.rb"; "cli.js"; "cli.ts";
   "__main__.py"; "app.py"; "app.rb"; "server.py"; "server.rb"]%string.

Definition ruby_entry_patterns : list string := ["winagent"; "register.rb"]%string.

Definition js_config_patterns : list string :=
  ["webpack.config"; "rollup.config"; "vite.config"; "babel.config";
   "jest.config"; "eslint.config"; "prettier.config"; "postcss.config";
   "tailwind.config"; "next.config"; "nuxt.config"; "svelte.config";
   ".config.js"]%string.

Definition ts_config_patterns : list string :=
  ["webpack.config"; "rollup.config"; "vite.config"; "jest.config";
   "eslint.config"; ".config.ts"]%string.

Definition java_reflection_patterns : list string :=
  ["/models/"; "/model/"; "/dto/"; "/entities/"; "/handlers/"]%string.

(** [UnusedModules._is_language_specific_entry_point]. *)
Definition is_language_specific_entry_point (file_path : path) (ext : string) : bool :=
  let file_name := Py.lower (name file_path) in
  let file_str := Py.lower (to_string file_path) in
  if String.eqb ext ".rb" then
    existsb (fun pattern => Py.contains pattern file_str) ruby_entry_patterns
  else if String.eqb ext ".js" then
    existsb (fun pattern => Py.contains pattern file_name) js_config_patterns
  else if String.eqb ext ".ts" then
    Py.endswith file_name ".d.ts" ||
    existsb (fun pattern => Py.contains pattern file_name) ts_config_patterns
  else if String.eqb ext ".java" then
    existsb (fun pattern => Py.contains pattern file_str) java_reflection_patterns
  else false.

(** The prefix-stripping loop with [break]. *)
Definition strip_vendor_prefix (nm : string) : string :=
  match List.find (Py.startswith nm) ["aws-"; "aws_"; "amazon-"; "amazon_"]%string with
  | Some prefix => Py.drop (String.length prefix) nm
  | None => nm
  end.

(** [UnusedModules.is_entry_point_file]. *)
Definition is_entry_point_file (file_path : path) : bool :=
  let file_str := Py.lower (to_string file_path) in
  if existsb (fun pattern => Py.contains pattern file_str) entry_patterns then true else
  let file_name := Py.lower (name file_path) in
  if bool_decide (file_name ∈ entry_file_names) then true else
  let ext := Py.lower (suffix file_path) in
  if is_language_specific_entry_point file_path ext then true else
  let file_stem := Py.lower (stem file_path) in
  let project_root_name := strip_vendor_prefix (Py.lower (name (project_root project))) in
  Py.contains project_root_name file_stem || Py.contains file_stem project_root_name.

(** [UnusedModules.collect_all_modules]: module name to file path. *)
Definition collect_all_modules : PyResult (list (string * path)) :=
  py_fold (fun modules file =>
             if is_test_file file then PyOk modules
             else if is_entry_point_file file then PyOk modules
             else if is_supported_format (Py.lower (suffix file)) then
               module_name <- get_module_name_from_file file ;;
               PyOk (dict_set module_name file modules)
             else PyOk modules)
          (project_files project) [].

(** The sub-path loops of [collect_all_imports] for one raw import. *)
Definition expand_import (all_imports : gset string) (import_name : string) : gset string :=
  let parts := Py.split "." import_name in
  let all_imports :=
    fold_left (fun acc i => {[ Py.join "." (Py.tail_slice i parts) ]} ∪ acc)
              (seq 1 (length parts)) all_imports in
  if Py.contains "/" import_name then
    let slash_parts := Py.split "/" import_name in
    fold_left (fun acc i =>
                 {[ Py.join "." (Py.tail_slice i slash_parts) ]} ∪
                 ({[ Py.join "/" (Py.tail_slice i slash_parts) ]} ∪ acc))
              (seq 1 (length slash_parts)) all_imports
  else all_imports.

(** [UnusedModules.collect_all_imports]. *)
Definition collect_all_imports : gset string :=
  fold_left (fun all_imports file =>
               if is_supported_format (Py.lower (suffix file)) then
                 let imports := collect_imports_from_content file in
                 fold_left expand_import imports (list_to_set imports ∪ all_imports)
               else all_imports)
            (project_files project) ∅.

(** The inner [for import_name in all_imports] loop of
    [find_unused_modules]: [True] when it reaches [is_imported = True]. *)
Definition matches_some_import (module_parts : list string) (all_imports : gset string) : bool :=
  existsb (fun import_name =>
             let import_parts := Py.split "." import_name in
             ((length module_parts <=? length import_parts) &&
              bool_decide (Py.tail_slice (length module_parts) import_parts = module_parts)) ||
             ((length import_parts <=? length module_parts) &&
              bool_decide (Py.tail_slice (length import_parts) module_parts = import_parts)))
          (elements all_imports).

Definition is_imported (module_name : string) (all_imports : gset string) : bool :=
  bool_decide (module_name ∈ all_imports) ||
  matches_some_import (Py.split "." module_name) all_imports.

(** The outer loop of [find_unused_modules] over [all_modules.items()]. *)
Definition unused_among (all_modules : list (string * path)) (all_imports : gset string)
    : list (string * path) :=
  fold_left (fun unused_modules '(module_name, file_path) =>
               if is_imported module_name all_imports then unused_modules
               else dict_set module_name file_path unused_modules)
            all_modules [].

(** [UnusedModules.find_unused_modules]. *)
Definition find_unused_modules : PyResult (list (string * path)) :=
  all_modules <- collect_all_modules ;;
  let all_imports := collect_all_imports in
  PyOk (unused_among all_modules all_imports).

(** [sorted(modules)]: the module names of one dict are distinct, so the
    tuple order is decided by the name alone. *)
Fixpoint insert_sorted (x : string * path) (l : list (string * path)) : list (string * path) :=
  match l with
  | [] => [x]
  | y :: ys => if String.leb x.1 y.1 then x :: l else y :: insert_sorted x ys
  end.

Definition sort_modules (l : list (string * path)) : list (string * path) :=
  fold_right insert_sorted [] l.

Fixpoint dashes (n : nat) : string :=
  match n with
  | 0 => EmptyString
  | S n' => String "-"%char (dashes n')
  end.

Definition nl : string := String "010"%char EmptyString.

(** [UnusedModules.report]. *)
Definition report : PyResult string :=
  unused_modules <- find_unused_modules ;;
  match unused_modules with
  | [] => PyOk ""%string
  | _ :: _ =>
      let header := ("Found " +:+ Py.str_of_nat (length unused_modules) +:+
                     " unused modules:" +:+ nl +:+ nl)%string in
      let by_extension :=
        fold_left (fun by_ext '(module_name, file_path) =>
                     dict_append (Py.lower (suffix file_path)) (module_name, file_path) by_ext)
                  unused_modules [] in
      body <- py_fold (fun acc '(ext, modules) =>
                let acc := (acc +:+ nl +:+ ext +:+ " modules:" +:+ nl +:+
                            dashes (String.length ext + 9) +:+ nl)%string in
                py_fold (fun acc '(module_name, file_path) =>
                           match relative_to file_path (project_root project) with
                           | None => PyErr ValueError
                           | Some rel =>
                               PyOk (acc +:+ "  - " +:+ module_name +:+ " (" +:+
                                     to_string rel +:+ ")" +:+ nl)%string
                           end)
                        (sort_modules modules) acc)
              by_extension header ;;
      PyOk (body +:+ nl +:+ "Total unused modules: " +:+
            Py.str_of_nat (length unused_modules))%string
  end.

End Detector.

End UnusedModules.

(* ------------------------------------------------------------------ *)
(** ** The headers tree of a markdown document ([documentation.py]) *)

(** An [anytree] node made by [_build_headers_tree]: its name (the heading
    text), its [level] and the nodes attached to it, in attachment order. *)
#[warnings="-register-all"]
Inductive HeaderNode := HNode (hn_text : string) (hn_level : nat) (hn_children : list HeaderNode).

(** [_build_headers_tree(headings, parent, i, base_level)]. The [while]
    loop is the tail call at the same [parent] and [base_level]; the result
    is the list of nodes attached to [parent] and the returned index.
    [fuel] bounds the recursion ([None] only when it runs out; see
    [build_headers_tree_enough_fuel]). *)
Fixpoint build_headers_tree_fuel (fuel : nat) (headings : list (nat * string))
    (i base_level : nat) : option (list HeaderNode * nat) :=
  match fuel with
  | 0 => None
  | S fuel' =>
      match headings !! i with
      | Some (level, text) =>
          if base_level <? level then
            match build_headers_tree_fuel fuel' headings (i + 1) level with
            | Some (kids, i') =>
                match build_headers_tree_fuel fuel' headings i' base_level with
                | Some (siblings, i'') => Some (HNode text level kids :: siblings, i'')
                | None => None
                end
            | None => None
            end
          else Some ([], i)
      | None => Some ([], i)
      end
  end.

(** The call [_build_headers_tree(headings, self.headers)] of [_parse_md]. *)
Definition build_headers_tree (headings : list (nat * string)) : option (list HeaderNode * nat) :=
  build_headers_tree_fuel (S (length headings)) headings 0 0.

(** The headings of a tree in pre-order (the order [anytree] walks it). *)
Fixpoint hnode_preorder (n : HeaderNode) : list (nat * string) :=
  match n with
  | HNode text level kids => (level, text) :: concat (map hnode_preorder kids)
  end.

(** Every child is one level deeper or more than its parent. *)
Fixpoint hnode_nested (n : HeaderNode) : bool :=
  match n with
  | HNode _ level kids =>
      forallb (fun c => match c with HNode _ l _ => level <? l end) kids &&
      forallb hnode_nested kids
  end.

(* ------------------------------------------------------------------ *)
(** ** Statements of the specification *)

(** The artifact a visited match would create. *)
Definition mk_artifact (e : string * SearchPattern * DocPart) : Artifact :=
  let '(m, pattern, dp) := e in
  {| art_pattern := pattern; art_match := m; art_source := dp_source dp |}.

(** The loop body of [collect_docs_artifacts] as a step on one visited match. *)
Definition visit_event (st : list Artifact * gmap string CacheVal)
    (e : string * SearchPattern * DocPart) : list Artifact * gmap string CacheVal :=
  let '(m, pattern, dp) := e in visit_match pattern dp st m.

(** Keep the first visited match of each string that has no control
    character and was not [seen] before. *)
Fixpoint dedup_visited (seen : list string) (evs : list (string * SearchPattern * DocPart))
    : list Artifact :=
  match evs with
  | [] => []
  | e :: evs' =>
      let '(m, _, _) := e in
      if (0 <? Py.count_control m) || bool_decide (m ∈ seen) then dedup_visited seen evs'
      else mk_artifact e :: dedup_visited (seen ++ [m]) evs'
  end.

Section ExtractionSpec.

Variable fs : FileSystem.
Variable find_all : SearchPattern -> DocPart -> list string.

(** The matches the loops of [collect_docs_artifacts] visit, in traversal
    order (patterns outer, documents inner): each match [find_all] yields
    on a document that passes the binary-content guard. *)
Definition visited (p : Project) (patterns : list SearchPattern)
    : list (string * SearchPattern * DocPart) :=
  concat (map (fun pattern =>
    concat (map (fun dp =>
      if binary_content (read fs dp) then []
      else map (fun m => (m, pattern, dp)) (find_all pattern dp))
      (doc_parts p))) patterns).

(** The first visited match equal to [s]; when [s] has no control
    character this is the first document that produced [s]. *)
Definition first_producer (p : Project) (patterns : list SearchPattern) (s : string)
    : option (string * SearchPattern * DocPart) :=
  List.find (fun '(m, _, _) => String.eqb m s) (visited p patterns).

End ExtractionSpec.

(** "The trailing segments of [xs] equal the whole of [ys]". *)
Definition trailing_segments (xs ys : list string) : Prop := exists pre, xs = pre ++ ys.

(** The expansion of one raw import described by the specification: the
    raw string, every dot-delimited suffix, and when it contains a slash
    every slash-delimited suffix joined by ["/"] and by ["."]. *)
Definition in_import_expansion (x raw : string) : Prop :=
  x = raw \/
  (exists k, k < length (Py.split "." raw) /\ x = Py.join "." (skipn k (Py.split "." raw))) \/
  (Py.contains "/" raw = true /\
   exists k, k < length (Py.split "/" raw) /\
     (x = Py.join "/" (skipn k (Py.split "/" raw)) \/
      x = Py.join "." (skipn k (Py.split "/" raw)))).

(** The derived spellings of one raw import. *)
Definition expansion_tail (x raw : string) : Prop :=
  (exists k, k < length (Py.split "." raw) /\ x = Py.join "." (skipn k (Py.split "." raw))) \/
  (Py.contains "/" raw = true /\
   exists k, k < length (Py.split "/" raw) /\
     (x = Py.join "/" (skipn k (Py.split "/" raw)) \/
      x = Py.join "." (skipn k (Py.split "/" raw)))).

(** The test markers and the global entry markers of the classifiers. *)
Definition root_markers : list string :=
  UnusedModules.test_patterns ++ UnusedModules.entry_patterns.


Section CatalogSpec.

Variable sup : string -> bool.
Variable proj : Project.

(** A file [collect_all_modules] turns into a module. *)
Definition qualifies (f : path) : Prop :=
  UnusedModules.is_test_file f = false /\ UnusedModules.is_entry_point_file proj f = false /\
  sup (Py.lower (suffix f)) = true.

Definition catalog_step (modules : list (string * path)) (file : path)
    : PyResult (list (string * path)) :=
  if UnusedModules.is_test_file file then PyOk modules
  else if UnusedModules.is_entry_point_file proj file then PyOk modules
  else if sup (Py.lower (suffix file)) then
    module_name <- UnusedModules.get_module_name_from_file proj file ;;
    PyOk (dict_set module_name file modules)
  else PyOk modules.

(** The module a file is the last one to define among the files [pre]. *)
Definition latest (pre : list path) (m : string) (f : path) : Prop :=
  exists a b, pre = a ++ f :: b /\ qualifies f /\
    UnusedModules.get_module_name_from_file proj f = PyOk m /\
    forall g, g ∈ b -> qualifies g -> UnusedModules.get_module_name_from_file proj g <> PyOk m.

End CatalogSpec.

(* ------------------------------------------------------------------ *)
(** ** Concrete inputs *)

Module Fixtures.

Fixpoint is_strict_prefix (d p : path) : bool :=
  match d, p with
  | [], _ :: _ => true
  | x :: d', y :: p' => String.eqb x y && is_strict_prefix d' p'
  | _, _ => false
  end.

(** An in-memory file system: the listed files, their directories (the
    strict prefixes of their paths), [resolve] as the identity. *)
Definition mem_fs (files : list (path * string)) : FileSystem := {|
  fs_is_file := fun p => existsb (fun f => bool_decide (f.1 = p)) files;
  fs_is_dir := fun p => existsb (fun f => is_strict_prefix p f.1) files;
  fs_exists := fun p => existsb (fun f => bool_decide (f.1 = p) || is_strict_prefix p f.1) files;
  fs_resolve := fun p => p;
  fs_read_text := fun p =>
    match List.find (fun f => bool_decide (f.1 = p)) files with
    | Some f => f.2
    | None => ""%string
    end;
  fs_walk_files := fun d => List.filter (is_strict_prefix d) (map fst files)
|}.

Definition root : path := ["/"; "p"]%string.

Definition plain_project : Project :=
  {| project_root := root; doc_paths := []; project_files := []; doc_parts := [] |}.

(** A project whose configuration names the directory [docs] as
    documentation; its only file is [docs/guide.md]. *)
Definition guide : path := ["/"; "p"; "docs"; "guide.md"]%string.
Definition guide_fs : FileSystem := mem_fs [(guide, "Set FOO_BAR before running."%string)].
Definition docs_config : Configuration :=
  {| documentation_paths := ["docs"%string]; documentation_paths_to_ignore := [] |}.
Definition guide_project : Project := project_init guide_fs root (Some docs_config) [guide].

(** Two inline documents, one of them binary, and a matcher that finds
    the string [x] in every document. *)
Definition text_doc : DocPart := DocString "x" "a".
Definition binary_doc : DocPart := DocString (String "000"%char "x") "b".
Definition two_docs : Project :=
  {| project_root := root; doc_paths := []; project_files := [];
     doc_parts := [text_doc; binary_doc] |}.
Definition find_x (_ : SearchPattern) (_ : DocPart) : list string := ["x"%string].

(** A matcher that finds [/usr/share/app/config.yml] with the Unix path
    rule and nothing else. *)
Definition usr_path : string := "/usr/share/app/config.yml".
Definition find_usr (sp : SearchPattern) (_ : DocPart) : list string :=
  match sp_regex sp with
  | UnixPathRe => [usr_path]
  | _ => []
  end.
Definition readme_doc : DocPart := DocString "See /usr/share/app/config.yml" "markdown".
Definition usr_project : Project :=
  {| project_root := root; doc_paths := []; project_files := [];
     doc_parts := [readme_doc] |}.

(** A project rooted under a [tests] directory. *)
Definition tests_root : path := ["/"; "home"; "u"; "tests"; "proj"]%string.
Definition tests_project : Project :=
  {| project_root := tests_root; doc_paths := [];
     project_files := [tests_root ++ ["src"; "util.py"]%string;
                       tests_root ++ ["pkg"; "core.py"]%string];
     doc_parts := [] |}.

(** A README and a source file that both mention [FOO]. *)
Definition readme : path := ["/"; "p"; "README.md"]%string.
Definition conf_src : path := ["/"; "p"; "lib"; "conf.py"]%string.
Definition readme_fs : FileSystem :=
  mem_fs [(readme, "FOO"%string); (conf_src, "x = FOO"%string)].
Definition readme_project : Project := project_init readme_fs root None [readme; conf_src].

(** A documentation directory with one markdown file and one text file. *)
Definition docs_dir : path := ["/"; "p"; "docs"]%string.
Definition docs_fs : FileSystem :=
  mem_fs [(docs_dir ++ ["a.md"%string], "x"%string); (docs_dir ++ ["b.txt"%string], "y"%string)].

(** Two files that both define the module [core.util]. *)
Definition util_a : path := ["/"; "p"; "core"; "util.py"]%string.
Definition util_b : path := ["/"; "p"; "src"; "core"; "util.py"]%string.
Definition twin_project : Project :=
  {| project_root := root; doc_paths := []; project_files := [util_a; util_b];
     doc_parts := [] |}.
Definition py_only (ext : string) : bool := String.eqb ext ".py".
Definition no_imports (_ : path) : list string := [].

(** A project whose root directory is named [aws-]. *)
Definition aws_root : path := ["/"; "srv"; "aws-"]%string.
Definition aws_project : Project :=
  {| project_root := aws_root; doc_paths := [];
     project_files := [aws_root ++ ["lib"; "s3.py"]%string]; doc_parts := [] |}.

End Fixtures.

(* ------------------------------------------------------------------ *)
(** ** Existence resolver and report *)

Lemma contains_path_os_root_false :
  forall fs p pth src,
    existsb (Py.startswith pth) OS_ROOT_PATHS = true ->
    contains_path fs p pth src = false.
Proof. intros fs p pth src H. unfold contains_path. now rewrite H. Qed.

(** C1 (refuted by the code): a path with an OS root prefix is reported as
    missing. [contains_path] returns [false] on [/usr/share/app/config.yml]
    for every project, file system and source, and the report of a document
    mentioning it carries a drift line for it. *)
Theorem contains_path_os_root_reports_drift :
  (forall fs p src, contains_path fs p Fixtures.usr_path src = false) /\
  report (Fixtures.mem_fs []) Fixtures.find_usr Fixtures.usr_project =
    PyOk (drift_line "Path" Fixtures.usr_path (dp_source Fixtures.readme_doc)).
Proof.
  split.
  - intros fs p src. apply contains_path_os_root_false. reflexivity.
  - vm_compute. reflexivity.
Qed.

Lemma py_fold_ok {A B} (f : B -> A -> PyResult B) (l : list A) (b : B) :
  (forall b a, exists b', f b a = PyOk b') -> exists r, py_fold f l b = PyOk r.
Proof.
  intros Hf. revert b. induction l as [|x l IH]; intros b; simpl.
  - eauto.
  - destruct (Hf b x) as [b' ->]. simpl. apply IH.
Qed.

(** C3: whenever the string rules or the filename rule yield an artifact,
    [report] raises [TypeError] (both calls pass one argument where two are
    required); it returns exactly when neither family yields an artifact. *)
Theorem report_raises_type_error :
  forall fs find_all p,
    (collect_docs_artifacts fs find_all p string_patterns <> [] \/
     collect_docs_artifacts fs find_all p files_patterns <> [] ->
     report fs find_all p = PyErr TypeError) /\
    (forall r, report fs find_all p = PyOk r ->
     collect_docs_artifacts fs find_all p string_patterns = [] /\
     collect_docs_artifacts fs find_all p files_patterns = []) /\
    (collect_docs_artifacts fs find_all p string_patterns = [] ->
     collect_docs_artifacts fs find_all p files_patterns = [] ->
     exists r, report fs find_all p = PyOk r).
Proof.
  intros fs find_all p.
  assert (Hpath : forall res, exists r,
    py_fold (fun result a =>
      found <- call2 (contains_path fs p) [ArgStr (art_match a); ArgSource (art_source a)] ;;
      PyOk (if found then result
            else result +:+ drift_line "Path" (art_match a) (art_source a)))
      (collect_docs_artifacts fs find_all p path_patterns) res = PyOk r).
  { intros res. apply py_fold_ok. intros b a. simpl. eauto. }
  unfold report.
  destruct (collect_docs_artifacts fs find_all p string_patterns) as [|a0 sa] eqn:Hs;
    [|split; [reflexivity | split; [intros r Hr; discriminate Hr | congruence]]].
  cbn [py_fold py_bind]. destruct (Hpath ""%string) as [r0 Hr0]. rewrite Hr0. cbn [py_bind].
  destruct (collect_docs_artifacts fs find_all p files_patterns) as [|a1 fa] eqn:Hf.
  - split; [intros [H|H]; congruence |]. split; [auto |]. intros _ _. simpl. eauto.
  - split; [reflexivity |]. split; [intros r Hr; discriminate Hr | congruence].
Qed.

(** C5 (refuted by the code): the TCP-port regular expression accepts up to
    five digits, so it matches [70000], which exceeds 65535. *)
Theorem tcp_port_regex_matches_70000 :
  TcpPort.findall "runs on port 70000" = ["70000"%string] /\
  (65535 < TcpPort.digits_value "70000")%N.
Proof.
  split.
  - reflexivity.
  - apply N.ltb_lt. vm_compute. reflexivity.
Qed.

Lemma contains_string_spec :
  forall fs p s src,
    contains_string fs p s src = true <->
    exists f, f ∈ project_files p /\ (f ∉ doc_paths p) /\
              Py.contains s (fs_read_text fs f) = true.
Proof.
  intros fs p s src. unfold contains_string. rewrite existsb_exists.
  split.
  - intros [f [Hin H]]. case_decide; [discriminate |].
    exists f. split; [apply list_elem_of_In; exact Hin | split; assumption].
  - intros [f [Hin [Hnd H]]]. exists f. split; [apply list_elem_of_In; exact Hin |].
    case_decide; [contradiction | exact H].
Qed.

(** C7 (refuted by the code): a documentation file found through a
    documentation directory is scanned by [contains_string]. With
    [documentation_paths: [docs]], [docs/guide.md] is the project's only
    document and only file, and [contains_string] finds [FOO_BAR] in it. *)
Theorem contains_string_doc_dir_finds_itself :
  doc_paths Fixtures.guide_project = [Fixtures.root ++ ["docs"%string]] /\
  doc_parts Fixtures.guide_project = [DocFile Fixtures.guide] /\
  project_files Fixtures.guide_project = [Fixtures.guide] /\
  contains_string Fixtures.guide_fs Fixtures.guide_project "FOO_BAR"
    (dp_source (DocFile Fixtures.guide)) = true.
Proof. repeat split; vm_compute; reflexivity. Qed.

(* ------------------------------------------------------------------ *)
(** ** Unused-module resolver *)

Lemma split_not_nil : forall c s, Py.split c s <> [].
Proof.
  intros c [|a s]; simpl; [discriminate |].
  destruct (Ascii.eqb a c); [discriminate |].
  destruct (Py.split c s); discriminate.
Qed.

Lemma tail_slice_trailing :
  forall (xs ys : list string), ys <> [] ->
    ((length ys <=? length xs) && bool_decide (Py.tail_slice (length ys) xs = ys)) = true <->
    trailing_segments xs ys.
Proof.
  intros xs ys Hys. unfold Py.tail_slice, trailing_segments.
  destruct ys as [|y ys']; [contradiction |]. set (ys := y :: ys').
  replace (Nat.eqb (length ys) 0) with false by reflexivity.
  rewrite andb_true_iff, Nat.leb_le, bool_decide_eq_true.
  split.
  - intros [_ H]. exists (firstn (length xs - length ys) xs).
    rewrite <- H at 2. symmetry. apply firstn_skipn.
  - intros [pre ->]. rewrite length_app. split; [lia |].
    replace (length pre + length ys - length ys) with (length pre) by lia.
    apply drop_app_length.
Qed.

Lemma is_imported_spec :
  forall m (I : gset string),
    UnusedModules.is_imported m I = true <->
    m ∈ I \/
    exists i, i ∈ I /\ (trailing_segments (Py.split "." i) (Py.split "." m) \/
                        trailing_segments (Py.split "." m) (Py.split "." i)).
Proof.
  intros m I. unfold UnusedModules.is_imported, UnusedModules.matches_some_import.
  rewrite orb_true_iff, bool_decide_eq_true, existsb_exists.
  apply or_iff_compat_l. split.
  - intros [i [Hin H]]. exists i. split; [apply elem_of_elements, list_elem_of_In, Hin |].
    apply orb_true_iff in H as [H|H]; [left | right];
      apply tail_slice_trailing; auto using split_not_nil.
  - intros [i [Hin H]]. exists i. split; [apply list_elem_of_In, elem_of_elements, Hin |].
    apply orb_true_iff. destruct H as [H|H]; [left | right];
      apply tail_slice_trailing; auto using split_not_nil.
Qed.

Lemma dict_set_keys {V} :
  forall k (v : V) d m, m ∈ map fst (dict_set k v d) <-> m = k \/ m ∈ map fst d.
Proof.
  intros k v d m. unfold dict_set.
  destruct (existsb (fun kv => String.eqb kv.1 k) d) eqn:He.
  - rewrite map_map.
    assert (Hk : k ∈ map fst d).
    { apply existsb_exists in He as [[k' v'] [Hin Heq]]. simpl in Heq.
      apply String.eqb_eq in Heq. subst k'.
      apply list_elem_of_In, in_map_iff. exists (k, v'). auto. }
    replace (map (fun x => (if String.eqb x.1 k then (k, v) else x).1) d) with (map fst d).
    + split; [auto | intros [->|H]; auto].
    + apply map_ext. intros [a b]. simpl. destruct (String.eqb a k) eqn:E; [|reflexivity].
      apply String.eqb_eq in E. simpl. congruence.
  - rewrite map_app, elem_of_app. simpl. rewrite list_elem_of_singleton. tauto.
Qed.

Lemma unused_among_keys :
  forall (I : gset string) (l acc : list (string * path)) m,
    m ∈ map fst (fold_left (fun unused_modules '(module_name, file_path) =>
               if UnusedModules.is_imported module_name I then unused_modules
               else dict_set module_name file_path unused_modules) l acc) <->
    m ∈ map fst acc \/ (m ∈ map fst l /\ UnusedModules.is_imported m I = false).
Proof.
  intros I l. induction l as [|[n f] l IH]; intros acc m; simpl.
  - split; [auto | intros [H | [H _]]; [exact H | inversion H]].
  - rewrite IH. rewrite elem_of_cons.
    destruct (UnusedModules.is_imported n I) eqn:Hn.
    + split.
      * intros [H | [H1 H2]]; [auto | right; split; [right |]; assumption].
      * intros [H | [[->|H1] H2]]; [auto | congruence | auto].
    + rewrite dict_set_keys. split.
      * intros [[->|H] | [H1 H2]]; auto.
      * intros [H | [[->|H1] H2]]; auto.
Qed.

(** C2: a module is reported unused exactly when its identifier is not in
    the import closure, no import's trailing dot-segments equal its
    segments, and its trailing dot-segments equal no import's segments. *)
Theorem find_unused_modules_suffix_match :
  forall (all_modules : list (string * path)) (all_imports : gset string) m,
    m ∈ map fst (UnusedModules.unused_among all_modules all_imports) <->
    m ∈ map fst all_modules /\ (m ∉ all_imports) /\
    (forall i, i ∈ all_imports -> ~ trailing_segments (Py.split "." i) (Py.split "." m)) /\
    (forall i, i ∈ all_imports -> ~ trailing_segments (Py.split "." m) (Py.split "." i)).
Proof.
  intros all_modules I m. unfold UnusedModules.unused_among.
  rewrite unused_among_keys. simpl.
  assert (Himp : UnusedModules.is_imported m I = false <->
    (m ∉ I) /\
    (forall i, i ∈ I -> ~ trailing_segments (Py.split "." i) (Py.split "." m)) /\
    (forall i, i ∈ I -> ~ trailing_segments (Py.split "." m) (Py.split "." i))).
  { rewrite <- not_true_iff_false, is_imported_spec. split.
    - intros H. split; [intros Hm; apply H; auto |].
      split; intros i Hi Ht; apply H; right; exists i; auto.
    - intros [H1 [H2 H3]] [H | [i [Hi [Ht|Ht]]]]; [exact (H1 H) | exact (H2 i Hi Ht) | exact (H3 i Hi Ht)]. }
  rewrite <- Himp. split; [intros [H | H]; [inversion H | exact H] | auto].
Qed.

(** The three directions of the suffix match on [a.b], one at a time. *)
Example unused_exact_import :
  UnusedModules.unused_among [("a.b"%string, ["m"%string])] {["a.b"%string]} = [].
Proof. vm_compute. reflexivity. Qed.

Example unused_import_ends_with_module :
  UnusedModules.unused_among [("a.b"%string, ["m"%string])] {["x.a.b"%string]} = [].
Proof. vm_compute. reflexivity. Qed.

Example unused_module_ends_with_import :
  UnusedModules.unused_among [("a.b"%string, ["m"%string])] {["b"%string]} = [].
Proof. vm_compute. reflexivity. Qed.

Example unused_no_match :
  UnusedModules.unused_among [("a.b"%string, ["m"%string])] {["a"%string; "b.a"%string]} =
  [("a.b"%string, ["m"%string])].
Proof. vm_compute. reflexivity. Qed.

(* ------------------------------------------------------------------ *)
(** ** Import closure *)

Section ImportClosure.

Lemma fold_union_singleton (g : nat -> string) :
  forall (l : list nat) (acc : gset string) x,
    x ∈ fold_left (fun acc i => {[ g i ]} ∪ acc) l acc <->
    x ∈ acc \/ exists i, i ∈ l /\ x = g i.
Proof.
  induction l as [|i l IH]; intros acc x; simpl.
  - split; [auto | intros [H | [i [Hi _]]]; [exact H | inversion Hi]].
  - rewrite IH, elem_of_union, elem_of_singleton. split.
    + intros [[H|H] | [j [Hj H]]]; [right; exists i; split; [left | exact H] | left; exact H |
                                   right; exists j; split; [right; exact Hj | exact H]].
    + intros [H | [j [Hj H]]]; [auto |].
      apply elem_of_cons in Hj as [->|Hj]; [auto | right; exists j; auto].
Qed.

Lemma fold_union_two (g h : nat -> string) :
  forall (l : list nat) (acc : gset string) x,
    x ∈ fold_left (fun acc i => {[ g i ]} ∪ ({[ h i ]} ∪ acc)) l acc <->
    x ∈ acc \/ exists i, i ∈ l /\ (x = h i \/ x = g i).
Proof.
  induction l as [|i l IH]; intros acc x; simpl.
  - split; [auto | intros [H | [i [Hi _]]]; [exact H | inversion Hi]].
  - rewrite IH, !elem_of_union, !elem_of_singleton. split.
    + intros [[H|[H|H]] | [j [Hj H]]];
        [right; exists i; split; [left | auto] | right; exists i; split; [left | auto] |
         left; exact H | right; exists j; split; [right; exact Hj | exact H]].
    + intros [H | [j [Hj H]]]; [auto |].
      apply elem_of_cons in Hj as [->|Hj]; [tauto | right; exists j; auto].
Qed.

Lemma seq_tail_slices {A} (P : list A -> Prop) (parts : list A) :
  (exists i, i ∈ seq 1 (length parts) /\ P (Py.tail_slice i parts)) <->
  (exists k, k < length parts /\ P (skipn k parts)).
Proof.
  unfold Py.tail_slice. split.
  - intros [i [Hi H]]. apply elem_of_seq in Hi.
    destruct (Nat.eqb_spec i 0); [lia |].
    exists (length parts - i). split; [lia | exact H].
  - intros [k [Hk H]]. exists (length parts - k). rewrite elem_of_seq.
    split; [lia |]. destruct (Nat.eqb_spec (length parts - k) 0); [lia |].
    replace (length parts - (length parts - k)) with k by lia. exact H.
Qed.

Lemma expand_import_spec :
  forall acc raw x,
    x ∈ UnusedModules.expand_import acc raw <-> x ∈ acc \/ expansion_tail x raw.
Proof.
  intros acc raw x. unfold UnusedModules.expand_import, expansion_tail.
  pose proof (seq_tail_slices (fun s => x = Py.join "." s) (Py.split "." raw)) as E1.
  pose proof (seq_tail_slices (fun s => x = Py.join "/" s \/ x = Py.join "." s)
                              (Py.split "/" raw)) as E2.
  cbv beta in E1, E2.
  destruct (Py.contains "/" raw) eqn:Hs.
  - rewrite fold_union_two, fold_union_singleton, E1, E2. tauto.
  - rewrite fold_union_singleton, E1. split; [tauto |].
    intros [H | [H | [H _]]]; [auto | auto | discriminate H].
Qed.

Lemma fold_expand_import_spec :
  forall (imports : list string) acc x,
    x ∈ fold_left UnusedModules.expand_import imports acc <->
    x ∈ acc \/ exists raw, raw ∈ imports /\ expansion_tail x raw.
Proof.
  induction imports as [|raw imports IH]; intros acc x; simpl.
  - split; [auto | intros [H | [r [Hr _]]]; [exact H | inversion Hr]].
  - rewrite IH, expand_import_spec. split.
    + intros [[H|H] | [r [Hr H]]]; [auto | right; exists raw; split; [left | exact H] |
                                  right; exists r; split; [right; exact Hr | exact H]].
    + intros [H | [r [Hr H]]]; [auto |].
      apply elem_of_cons in Hr as [->|Hr]; [auto | right; exists r; auto].
Qed.

End ImportClosure.

(** C4: the import closure holds exactly the expansions (raw string, every
    dot suffix, and for a raw string with a slash every slash suffix joined
    by slashes and by dots) of every raw import extracted from any project
    file of a supported format, test files included. *)
Theorem collect_all_imports_closure :
  forall is_supported_format (collect_imports_from_content : path -> list string)
         (proj : Project) x,
    x ∈ UnusedModules.collect_all_imports is_supported_format collect_imports_from_content proj
    <->
    exists f raw, f ∈ project_files proj /\
                  is_supported_format (Py.lower (suffix f)) = true /\
                  raw ∈ collect_imports_from_content f /\
                  in_import_expansion x raw.
Proof.
  intros sup ext proj x. unfold UnusedModules.collect_all_imports.
  assert (Hgen : forall (files : list path) (acc : gset string),
    x ∈ fold_left (fun all_imports file =>
               if sup (Py.lower (suffix file)) then
                 fold_left UnusedModules.expand_import (ext file)
                           (list_to_set (ext file) ∪ all_imports)
               else all_imports) files acc <->
    x ∈ acc \/ exists f raw, f ∈ files /\ sup (Py.lower (suffix f)) = true /\
                             raw ∈ ext f /\ in_import_expansion x raw).
  { induction files as [|f files IH]; intros acc; simpl.
    - split; [auto | intros [H | [f [r [Hf _]]]]; [exact H | inversion Hf]].
    - rewrite IH. destruct (sup (Py.lower (suffix f))) eqn:Hsup.
      + rewrite fold_expand_import_spec, elem_of_union, elem_of_list_to_set.
        unfold in_import_expansion. split.
        * intros [[[H|H] | [r [Hr H]]] | [g [r [Hg [Hsg [Hr H]]]]]].
          -- right. exists f, x. repeat split; [left | exact Hsup | exact H | left; reflexivity].
          -- left. exact H.
          -- right. exists f, r. repeat split; [left | exact Hsup | exact Hr | right; exact H].
          -- right. exists g, r. repeat split; [right; exact Hg | exact Hsg | exact Hr | exact H].
        * intros [H | [g [r [Hg [Hsg [Hr H]]]]]]; [left; left; right; exact H |].
          apply elem_of_cons in Hg as [->|Hg].
          -- left. destruct H as [-> | H]; [left; left; exact Hr | right; exists r; auto].
          -- right. exists g, r. auto.
      + split.
        * intros [H | [g [r [Hg H]]]]; [auto | right; exists g, r; split; [right; exact Hg | exact H]].
        * intros [H | [g [r [Hg [Hsg H]]]]]; [auto |].
          apply elem_of_cons in Hg as [->|Hg]; [congruence |].
          right. exists g, r. auto. }
  rewrite Hgen. split; [intros [H | H]; [apply elem_of_empty in H; contradiction | exact H] | auto].
Qed.

(* ------------------------------------------------------------------ *)
(** ** Extraction engine *)

Section ExtractionProofs.

Variable fs : FileSystem.
Variable find_all : SearchPattern -> DocPart -> list string.

Lemma fold_left_concat_map {A B C} (f : A -> B -> A) (g : C -> list B) :
  forall (l : list C) acc,
    fold_left f (concat (map g l)) acc = fold_left (fun acc x => fold_left f (g x) acc) l acc.
Proof.
  induction l as [|x l IH]; intros acc; simpl; [reflexivity |].
  rewrite fold_left_app. apply IH.
Qed.

Lemma fold_left_ext_pointwise {A B} (f g : A -> B -> A) :
  (forall a x, f a x = g a x) -> forall l acc, fold_left f l acc = fold_left g l acc.
Proof.
  intros Hfg l. induction l as [|x l IH]; intros acc; simpl; [reflexivity |].
  rewrite Hfg. apply IH.
Qed.

Lemma collect_as_visits :
  forall p patterns,
    collect_docs_artifacts fs find_all p patterns =
    fst (fold_left visit_event (visited fs find_all p patterns) ([], ∅)).
Proof.
  intros p patterns. unfold collect_docs_artifacts, visited.
  rewrite fold_left_concat_map. f_equal.
  apply fold_left_ext_pointwise. intros st pattern.
  rewrite fold_left_concat_map.
  apply fold_left_ext_pointwise. intros st' dp.
  unfold visit_doc. destruct (binary_content (read fs dp)); [reflexivity |].
  generalize st'. induction (find_all pattern dp) as [|m ms IH]; intros st0; simpl;
    [reflexivity | apply IH].
Qed.

Lemma visits_dedup :
  forall evs arts (cache : gmap string CacheVal),
    (forall m, is_Some (cache !! m) <-> m ∈ map art_match arts) ->
    fst (fold_left visit_event evs (arts, cache)) =
    arts ++ dedup_visited (map art_match arts) evs.
Proof.
  induction evs as [|[[m pattern] dp] evs IH]; intros arts cache Hinv; simpl.
  - symmetry. apply app_nil_r.
  - unfold visit_match. destruct (0 <? Py.count_control m) eqn:Hc; simpl; [apply IH; exact Hinv |].
    destruct (cache !! m) as [v|] eqn:Hm.
    + assert (Hin : m ∈ map art_match arts) by (apply Hinv; rewrite Hm; eauto).
      rewrite bool_decide_true by exact Hin.
      apply IH. intros m'. rewrite lookup_insert_is_Some', Hinv.
      split; [intros [<-|H]; auto | auto].
    + assert (Hnin : m ∉ map art_match arts).
      { intros Hin. apply Hinv in Hin. rewrite Hm in Hin. inversion Hin. discriminate. }
      rewrite bool_decide_false by exact Hnin.
      rewrite IH.
      * rewrite map_app, <- app_assoc. reflexivity.
      * intros m'. rewrite !lookup_insert_is_Some', Hinv, map_app, elem_of_app.
        simpl. rewrite list_elem_of_singleton. split; intros [H|H]; auto.
        destruct H; auto.
Qed.

Lemma collect_dedup :
  forall p patterns,
    collect_docs_artifacts fs find_all p patterns =
    dedup_visited [] (visited fs find_all p patterns).
Proof.
  intros p patterns. rewrite collect_as_visits.
  apply (visits_dedup _ [] ∅). intros m. rewrite lookup_empty. simpl.
  split; [intros H; inversion H; discriminate | intros H; inversion H].
Qed.

Lemma dedup_filter :
  forall evs seen s,
    List.filter (fun a => String.eqb (art_match a) s) (dedup_visited seen evs) =
    if (0 <? Py.count_control s) || bool_decide (s ∈ seen) then []
    else match List.find (fun '(m, _, _) => String.eqb m s) evs with
         | Some e => [mk_artifact e]
         | None => []
         end.
Proof.
  induction evs as [|[[m pattern] dp] evs IH]; intros seen s; simpl.
  - destruct (_ || _); reflexivity.
  - destruct (String.eqb_spec m s) as [->|Hne].
    + destruct ((0 <? Py.count_control s) || bool_decide (s ∈ seen)) eqn:Hcond.
      * rewrite IH, Hcond. reflexivity.
      * simpl. rewrite String.eqb_refl, IH.
        rewrite (bool_decide_true (s ∈ seen ++ [s])), orb_true_r; [reflexivity |].
        apply elem_of_app. right. apply list_elem_of_singleton. reflexivity.
    + assert (Hseen : forall l, bool_decide (s ∈ l ++ [m]) = bool_decide (s ∈ l)).
      { intros l. apply bool_decide_ext. rewrite elem_of_app, list_elem_of_singleton.
        split; [intros [H|H]; [exact H | congruence] | auto]. }
      destruct ((0 <? Py.count_control m) || bool_decide (m ∈ seen)).
      * apply IH.
      * simpl. apply String.eqb_neq in Hne. rewrite Hne, IH, Hseen. reflexivity.
Qed.

Lemma dedup_origin :
  forall evs seen a,
    a ∈ dedup_visited seen evs ->
    Py.count_control (art_match a) = 0 /\ exists e, e ∈ evs /\ a = mk_artifact e.
Proof.
  induction evs as [|[[m pattern] dp] evs IH]; intros seen a Ha; simpl in Ha.
  - inversion Ha.
  - destruct ((0 <? Py.count_control m) || bool_decide (m ∈ seen)) eqn:Hcond.
    + apply IH in Ha as [Hc [e [He ->]]]. split; [exact Hc | exists e; split; [right |]; auto].
    + apply elem_of_cons in Ha as [->|Ha].
      * apply orb_false_iff in Hcond as [Hc _]. apply Nat.ltb_ge in Hc. simpl.
        split; [lia | exists (m, pattern, dp); split; [left | reflexivity]].
      * apply IH in Ha as [Hc [e [He ->]]]. split; [exact Hc | exists e; split; [right |]; auto].
Qed.

Lemma visited_spec :
  forall p patterns m pattern dp,
    (m, pattern, dp) ∈ visited fs find_all p patterns ->
    pattern ∈ patterns /\ dp ∈ doc_parts p /\ binary_content (read fs dp) = false /\
    m ∈ find_all pattern dp.
Proof.
  intros p patterns m pattern dp H. unfold visited in H.
  apply list_elem_of_In, in_concat in H as [l1 [Hl1 H]].
  apply in_map_iff in Hl1 as [pat [<- Hpat]].
  apply in_concat in H as [l2 [Hl2 H]].
  apply in_map_iff in Hl2 as [d [<- Hd]].
  destruct (binary_content (read fs d)) eqn:Hb; [inversion H |].
  apply in_map_iff in H as [m' [Heq Hm]]. injection Heq as -> -> ->.
  repeat split; try apply list_elem_of_In; assumption.
Qed.

End ExtractionProofs.

(** C6: within one call, the artifacts whose match is [s] are exactly one
    when [s] was produced (visited on a non-binary document, without control
    characters), and none otherwise; that artifact carries the rule and the
    source of the first producing document in traversal order. *)
Theorem collect_docs_artifacts_first_producer :
  forall fs find_all p patterns s,
    List.filter (fun a => String.eqb (art_match a) s)
                (collect_docs_artifacts fs find_all p patterns) =
    if 0 <? Py.count_control s then []
    else match first_producer fs find_all p patterns s with
         | Some (_, pattern, dp) =>
             [{| art_pattern := pattern; art_match := s; art_source := dp_source dp |}]
         | None => []
         end.
Proof.
  intros fs find_all p patterns s. rewrite collect_dedup, dedup_filter.
  rewrite bool_decide_false by (intros H; inversion H). rewrite orb_false_r.
  destruct (0 <? Py.count_control s); [reflexivity |].
  unfold first_producer.
  destruct (List.find (fun '(m, _, _) => String.eqb m s) (visited fs find_all p patterns))
    as [[[m pattern] dp]|] eqn:Hf; [| reflexivity].
  apply List.find_some in Hf as [_ Hm]. apply String.eqb_eq in Hm. subst m. reflexivity.
Qed.

Lemma NoDup_map_same_image {A B} (f : A -> B) :
  forall (l : list A) x y, NoDup (map f l) -> x ∈ l -> y ∈ l -> f x = f y -> x = y.
Proof.
  induction l as [|a l IH]; intros x y Hnd Hx Hy Hf; [inversion Hx |].
  simpl in Hnd. apply NoDup_cons in Hnd as [Hnot Hnd].
  apply elem_of_cons in Hx as [->|Hx]; apply elem_of_cons in Hy as [->|Hy]; auto.
  - exfalso. apply Hnot. rewrite Hf. apply list_elem_of_In, in_map, list_elem_of_In, Hy.
  - exfalso. apply Hnot. rewrite <- Hf. apply list_elem_of_In, in_map, list_elem_of_In, Hx.
Qed.

(** C8: every artifact comes from a document that passed the binary-content
    guard (no null byte, at most 30 control characters other than newline,
    carriage return and tab among its first 1000), and no artifact's match
    contains such a control character; so when documents have distinct
    sources, no artifact has a binary document as its source. *)
Theorem collect_docs_artifacts_skips_binary :
  forall fs find_all p patterns,
    (forall a, a ∈ collect_docs_artifacts fs find_all p patterns ->
       Py.count_control (art_match a) = 0 /\
       exists dp, dp ∈ doc_parts p /\ binary_content (read fs dp) = false /\
                  art_source a = dp_source dp) /\
    (forall d, d ∈ doc_parts p -> binary_content (read fs d) = true ->
       NoDup (map dp_source (doc_parts p)) ->
       forall a, a ∈ collect_docs_artifacts fs find_all p patterns ->
       art_source a <> dp_source d).
Proof.
  intros fs find_all p patterns.
  assert (Horig : forall a, a ∈ collect_docs_artifacts fs find_all p patterns ->
       Py.count_control (art_match a) = 0 /\
       exists dp, dp ∈ doc_parts p /\ binary_content (read fs dp) = false /\
                  art_source a = dp_source dp).
  { intros a Ha. rewrite collect_dedup in Ha.
    apply dedup_origin in Ha as [Hc [[[m pattern] dp] [He ->]]].
    apply visited_spec in He as [_ [Hdp [Hb _]]].
    split; [exact Hc | exists dp; auto]. }
  split; [exact Horig |].
  intros d Hd Hbin Hnd a Ha Hsrc.
  destruct (Horig a Ha) as [_ [dp [Hdp [Hb Hs]]]].
  assert (dp = d) as ->.
  { apply (NoDup_map_same_image dp_source (doc_parts p)); auto. congruence. }
  congruence.
Qed.

Lemma collect_docs_artifacts_skips_binary_witness :
  binary_content (read (Fixtures.mem_fs []) Fixtures.binary_doc) = true /\
  NoDup (map dp_source (doc_parts Fixtures.two_docs)) /\
  (forall a, a ∈ collect_docs_artifacts (Fixtures.mem_fs []) Fixtures.find_x
                   Fixtures.two_docs string_patterns ->
     art_source a <> dp_source Fixtures.binary_doc).
Proof.
  assert (Hb : binary_content (read (Fixtures.mem_fs []) Fixtures.binary_doc) = true)
    by reflexivity.
  assert (Hnd : NoDup (map dp_source (doc_parts Fixtures.two_docs))).
  { simpl. apply NoDup_cons. split; [| apply NoDup_singleton].
    rewrite list_elem_of_singleton. discriminate. }
  split; [exact Hb | split; [exact Hnd |]].
  apply (proj2 (collect_docs_artifacts_skips_binary (Fixtures.mem_fs []) Fixtures.find_x
                  Fixtures.two_docs string_patterns) Fixtures.binary_doc);
    [right; left | exact Hb | exact Hnd].
Defined.

Lemma report_raises_type_error_witness :
  collect_docs_artifacts (Fixtures.mem_fs []) Fixtures.find_x Fixtures.two_docs
    string_patterns <> [] /\
  report (Fixtures.mem_fs []) Fixtures.find_x Fixtures.two_docs = PyErr TypeError.
Proof.
  assert (Hne : collect_docs_artifacts (Fixtures.mem_fs []) Fixtures.find_x Fixtures.two_docs
                  string_patterns <> []) by (vm_compute; discriminate).
  split; [exact Hne |].
  apply (proj1 (report_raises_type_error (Fixtures.mem_fs []) Fixtures.find_x
                  Fixtures.two_docs)).
  left. exact Hne.
Defined.

(* ------------------------------------------------------------------ *)
(** ** Module catalog *)

Lemma relative_to_app : forall (root rest : path), relative_to (root ++ rest) root = Some rest.
Proof.
  induction root as [|r root IH]; intros rest; [destruct rest; reflexivity |].
  simpl. rewrite String.eqb_refl. apply IH.
Qed.

Lemma take_nonempty : forall i nm, 0 < i -> nm <> ""%string -> Py.take i nm <> ""%string.
Proof.
  intros [|i] [|a nm] Hi Hnm; [lia | lia | contradiction |]. unfold Py.take. simpl. discriminate.
Qed.

Lemma stem_of_name_nonempty : forall nm, nm <> ""%string -> stem_of_name nm <> ""%string.
Proof.
  intros nm Hnm. unfold stem_of_name.
  destruct (Py.rfind "." nm) as [i|]; [| exact Hnm].
  destruct ((0 <? i) && (i <? String.length nm - 1)) eqn:Hc; [| exact Hnm].
  apply andb_true_iff in Hc as [Hi _]. apply Nat.ltb_lt in Hi.
  apply take_nonempty; assumption.
Qed.

Lemma join_two_or_more_nonempty :
  forall a (l : list string) x, Py.join "." (a :: l ++ [x]) <> ""%string.
Proof.
  intros a l x. unfold Py.join. simpl.
  destruct (l ++ [x]) as [|y ys] eqn:E; [destruct l; discriminate |].
  destruct a; discriminate.
Qed.

(** C9: for a file [root/d1/.../dn/nm], the module identifier is the
    dot-join of the directory segments that are not [src], [lib], [app],
    [source] or [code], followed by the stem; it is the stem alone when no
    segment survives, and it is never empty. *)
Theorem get_module_name_canonical :
  forall (proj : Project) (rel : list string) (nm : string),
    nm <> ""%string -> Py.contains "/" nm = false ->
    let filtered :=
      List.filter (fun part => negb (bool_decide (part ∈ UnusedModules.common_src_dirs))) rel in
    UnusedModules.get_module_name_from_file proj (project_root proj ++ rel ++ [nm]) =
      PyOk (Py.join "." (filtered ++ [stem_of_name nm])) /\
    (filtered = [] ->
     UnusedModules.get_module_name_from_file proj (project_root proj ++ rel ++ [nm]) =
       PyOk (stem_of_name nm)) /\
    (forall ident,
     UnusedModules.get_module_name_from_file proj (project_root proj ++ rel ++ [nm]) =
       PyOk ident -> ident <> ""%string).
Proof.
  intros proj rel nm Hnm Hslash filtered.
  assert (Hname : stem (project_root proj ++ rel ++ [nm]) = stem_of_name nm).
  { unfold stem, name. rewrite app_assoc, last_snoc.
    destruct (String.eqb_spec nm "/") as [->|_]; [discriminate Hslash | reflexivity]. }
  assert (Heq : UnusedModules.get_module_name_from_file proj (project_root proj ++ rel ++ [nm]) =
                PyOk (Py.join "." (filtered ++ [stem_of_name nm]))).
  { unfold UnusedModules.get_module_name_from_file. rewrite Hname, relative_to_app.
    rewrite removelast_last. fold filtered. destruct filtered; reflexivity. }
  split; [exact Heq |]. split.
  - intros Hf. rewrite Heq, Hf. reflexivity.
  - intros ident H. rewrite Heq in H. injection H as <-.
    destruct filtered as [|a l]; [apply stem_of_name_nonempty; exact Hnm |].
    apply join_two_or_more_nonempty.
Qed.

Lemma get_module_name_canonical_witness :
  "configuration.py"%string <> ""%string /\ Py.contains "/" "configuration.py" = false /\
  UnusedModules.get_module_name_from_file Fixtures.plain_project
    (project_root Fixtures.plain_project ++ ["src"; "core"]%string ++ ["configuration.py"%string]) =
  PyOk (Py.join "." (List.filter
          (fun part => negb (bool_decide (part ∈ UnusedModules.common_src_dirs)))
          ["src"; "core"]%string ++ [stem_of_name "configuration.py"])).
Proof.
  split; [discriminate |]. split; [reflexivity |].
  exact (proj1 (get_module_name_canonical Fixtures.plain_project ["src"; "core"]%string
                  "configuration.py"%string ltac:(discriminate) eq_refl)).
Defined.

Lemma prefix_app : forall m s t, String.prefix m s = true -> String.prefix m (s +:+ t) = true.
Proof.
  induction m as [|a m IH]; intros s t H; [destruct (s +:+ t); reflexivity |].
  destruct s as [|b s]; [discriminate H |]. simpl in *.
  destruct (ascii_dec a b); [apply IH; exact H | discriminate H].
Qed.

Lemma contains_app : forall m s t, Py.contains m s = true -> Py.contains m (s +:+ t) = true.
Proof.
  intros m s t. induction s as [|a s IH]; intros H.
  - simpl in H. rewrite orb_false_r in H. destruct m; [| discriminate H].
    destruct t; reflexivity.
  - simpl in *. apply orb_true_iff in H as [H|H].
    + apply orb_true_iff. left. apply (prefix_app m (String a s) t). exact H.
    + apply orb_true_iff. right. apply IH. exact H.
Qed.

Lemma prefix_lower : forall m s, String.prefix m s = true ->
  String.prefix (Py.lower m) (Py.lower s) = true.
Proof.
  induction m as [|a m IH]; intros s H; [destruct (Py.lower s); reflexivity |].
  destruct s as [|b s]; [discriminate H |]. simpl in *.
  destruct (ascii_dec a b) as [->|]; [| discriminate H].
  destruct (ascii_dec (Py.lower_char b) (Py.lower_char b)) as [_|n]; [| contradiction].
  apply IH. exact H.
Qed.

Lemma contains_lower : forall m s, Py.contains m s = true ->
  Py.contains (Py.lower m) (Py.lower s) = true.
Proof.
  intros m s. induction s as [|a s IH]; intros H.
  - simpl in H. rewrite orb_false_r in H. destruct m; [reflexivity | discriminate H].
  - simpl in *. apply orb_true_iff in H as [H|H].
    + apply orb_true_iff. left. apply (prefix_lower m (String a s)). exact H.
    + apply orb_true_iff. right. apply IH. exact H.
Qed.

Lemma str_app_assoc : forall s1 s2 s3 : string,
  (s1 +:+ s2) +:+ s3 = s1 +:+ (s2 +:+ s3).
Proof.
  induction s1 as [|c s1 IH]; intros s2 s3; [reflexivity |].
  unfold String.append; fold String.append. f_equal. apply IH.
Qed.

Lemma join_app : forall sep (l1 l2 : list string), l1 <> [] -> l2 <> [] ->
  Py.join sep (l1 ++ l2) = Py.join sep l1 +:+ sep +:+ Py.join sep l2.
Proof.
  intros sep l1 l2 H1 H2. unfold Py.join.
  induction l1 as [|a l1 IH]; [contradiction |].
  destruct l1 as [|b l1].
  - simpl. destruct l2; [contradiction | reflexivity].
  - assert (E : forall (x : string) (ys : list string),
      String.concat sep ((x :: b :: l1) ++ ys) =
      x +:+ sep +:+ String.concat sep ((b :: l1) ++ ys)) by reflexivity.
    rewrite E, IH by discriminate. cbn [String.concat].
    rewrite !str_app_assoc. reflexivity.
Qed.

Lemma to_string_app_prefix : forall root rel, root <> [] -> rel <> [] ->
  exists t, to_string (root ++ rel) = to_string root +:+ t.
Proof.
  intros root rel Hr Hrel. destruct root as [|x rest]; [contradiction |].
  unfold to_string. cbn [app]. destruct (String.eqb x "/") eqn:Ex.
  - destruct rest as [|y rest].
    + exists (Py.join "/" rel). reflexivity.
    + exists ("/" +:+ Py.join "/" rel).
      pose proof (join_app "/" (y :: rest) rel ltac:(discriminate) Hrel) as J.
      rewrite J.
      rewrite ?str_app_assoc. reflexivity.
  - exists ("/" +:+ Py.join "/" rel).
    pose proof (join_app "/" (x :: rest) rel ltac:(discriminate) Hrel) as J.
    cbn [app] in J. rewrite J.
    rewrite ?str_app_assoc. reflexivity.
Qed.

Lemma root_markers_lower : forall m, m ∈ root_markers -> Py.lower m = m.
Proof.
  intros m Hm. apply list_elem_of_In in Hm.
  repeat (destruct Hm as [<- | Hm]; [reflexivity |]). destruct Hm.
Qed.

Lemma root_markers_not_dot : forall m, m ∈ root_markers -> Py.contains m "." = false.
Proof.
  intros m Hm. apply list_elem_of_In in Hm.
  repeat (destruct Hm as [<- | Hm]; [reflexivity |]). destruct Hm.
Qed.

Lemma marker_classifies : forall proj m f,
  m ∈ root_markers -> Py.contains m (Py.lower (to_string f)) = true ->
  UnusedModules.is_test_file f = true \/ UnusedModules.is_entry_point_file proj f = true.
Proof.
  intros proj m f Hm Hc. unfold root_markers in Hm. apply elem_of_app in Hm as [Hm|Hm].
  - left. unfold UnusedModules.is_test_file. apply existsb_exists.
    exists m. split; [apply list_elem_of_In; exact Hm | exact Hc].
  - right. unfold UnusedModules.is_entry_point_file.
    replace (existsb _ UnusedModules.entry_patterns) with true; [reflexivity |].
    symmetry. apply existsb_exists.
    exists m. split; [apply list_elem_of_In; exact Hm | exact Hc].
Qed.

Lemma py_fold_keep {A B} (f : B -> A -> PyResult B) (l : list A) (b : B) :
  (forall x, x ∈ l -> f b x = PyOk b) -> py_fold f l b = PyOk b.
Proof.
  induction l as [|x l IH]; intros H; [reflexivity |].
  cbn [py_fold]. rewrite (H x) by (apply elem_of_cons; left; reflexivity).
  cbn [py_bind]. apply IH. intros y Hy. apply H. apply elem_of_cons. right. exact Hy.
Qed.

(** C10: classification reads the whole lowercased path string, directories
    above the project root included. When the string of the project root
    contains one of the test markers or one of the global entry markers,
    every project file below the root is a test file or an entry point,
    [collect_all_modules] is empty and the unused-modules report is the
    empty string, whatever the imports are. *)
Theorem root_marker_hides_all_modules :
  forall (sup : string -> bool) (ext : path -> list string) (proj : Project) (marker : string),
  marker ∈ root_markers ->
  Py.contains marker (to_string (project_root proj)) = true ->
  (forall f, f ∈ project_files proj -> exists rel, rel <> [] /\ f = project_root proj ++ rel) ->
  (forall f, f ∈ project_files proj ->
     UnusedModules.is_test_file f = true \/ UnusedModules.is_entry_point_file proj f = true) /\
  UnusedModules.collect_all_modules sup proj = PyOk [] /\
  UnusedModules.report sup ext proj = PyOk ""%string.
Proof.
  intros sup ext proj marker Hm Hroot Hfiles.
  assert (Hne : project_root proj <> []).
  { intros E. rewrite E in Hroot. cbn [to_string] in Hroot.
    rewrite (root_markers_not_dot marker Hm) in Hroot. discriminate. }
  assert (Hcls : forall f, f ∈ project_files proj ->
     UnusedModules.is_test_file f = true \/ UnusedModules.is_entry_point_file proj f = true).
  { intros f Hf. destruct (Hfiles f Hf) as (rel & Hrel & ->).
    destruct (to_string_app_prefix (project_root proj) rel Hne Hrel) as [t Ht].
    apply (marker_classifies proj marker); [exact Hm |].
    rewrite <- (root_markers_lower marker Hm). apply contains_lower.
    rewrite Ht. apply contains_app. exact Hroot. }
  assert (Hmods : UnusedModules.collect_all_modules sup proj = PyOk []).
  { unfold UnusedModules.collect_all_modules. apply py_fold_keep.
    intros f Hf. destruct (Hcls f Hf) as [-> | ->]; [reflexivity |].
    destruct (UnusedModules.is_test_file f); reflexivity. }
  split; [exact Hcls |]. split; [exact Hmods |].
  unfold UnusedModules.report, UnusedModules.find_unused_modules.
  rewrite Hmods. reflexivity.
Qed.

Lemma root_marker_hides_all_modules_witness :
  UnusedModules.collect_all_modules (fun _ => true) Fixtures.tests_project = PyOk [] /\
  UnusedModules.report (fun _ => true) (fun _ => ["pkg.core"]%string) Fixtures.tests_project
    = PyOk ""%string.
Proof.
  destruct (root_marker_hides_all_modules (fun _ => true) (fun _ => ["pkg.core"]%string)
              Fixtures.tests_project "/tests/"%string) as (_ & H1 & H2).
  - unfold root_markers. apply list_elem_of_In. simpl. tauto.
  - vm_compute. reflexivity.
  - intros f Hf. apply list_elem_of_In in Hf. simpl in Hf.
    destruct Hf as [<- | [<- | []]].
    + exists ["src"; "util.py"]%string. split; [discriminate | reflexivity].
    + exists ["pkg"; "core.py"]%string. split; [discriminate | reflexivity].
  - split; [exact H1 | exact H2].
Defined.

(* ------------------------------------------------------------------ *)
(** ** Further properties of the code *)

(** *** The headers tree *)

Lemma build_headers_tree_fuel_spec : forall fuel hs i base forest j,
  build_headers_tree_fuel fuel hs i base = Some (forest, j) ->
  i <= j /\ (i <= length hs -> j <= length hs) /\
  concat (map hnode_preorder forest) = take (j - i) (drop i hs) /\
  forallb (fun n => match n with HNode _ l _ => base <? l end) forest = true /\
  forallb hnode_nested forest = true /\
  (hs !! j = None \/ exists l t, hs !! j = Some (l, t) /\ l <= base).
Proof.
  induction fuel as [|fuel IH]; intros hs i base forest j H; [discriminate H |].
  cbn [build_headers_tree_fuel] in H.
  destruct (hs !! i) as [[level text]|] eqn:E.
  - destruct (base <? level) eqn:B.
    + destruct (build_headers_tree_fuel fuel hs (i + 1) level) as [[kids i']|] eqn:R1;
        [| discriminate H].
      destruct (build_headers_tree_fuel fuel hs i' base) as [[sibs i'']|] eqn:R2;
        [| discriminate H].
      injection H as <- <-.
      pose proof (lookup_lt_Some hs i _ E) as Hi.
      destruct (IH _ _ _ _ _ R1) as (Hle1 & Hlen1 & Hpre1 & Hlv1 & Hn1 & _).
      destruct (IH _ _ _ _ _ R2) as (Hle2 & Hlen2 & Hpre2 & Hlv2 & Hn2 & Hstop).
      split; [lia |]. split; [intros _; apply Hlen2, Hlen1; lia |].
      split; [| split; [| split]].
      * cbn [map concat hnode_preorder]. rewrite Hpre2, Hpre1.
        rewrite (drop_S hs (level, text) i E).
        replace (i'' - i) with (S ((i' - (i + 1)) + (i'' - i'))) by lia.
        cbn [take app]. f_equal. rewrite <- take_take_drop, drop_drop.
        replace (S i + (i' - (i + 1))) with i' by lia.
        replace (i + 1) with (S i) by lia. reflexivity.
      * cbn [forallb]. rewrite Hlv2, B. reflexivity.
      * cbn [forallb hnode_nested]. rewrite Hlv1, Hn1, Hn2. reflexivity.
      * exact Hstop.
    + injection H as <- <-. rewrite Nat.sub_diag, take_0.
      split; [lia |]. split; [auto |]. split; [reflexivity |]. split; [reflexivity |].
      split; [reflexivity |]. right. exists level, text. split; [exact E |].
      apply Nat.ltb_ge. exact B.
  - injection H as <- <-. rewrite Nat.sub_diag, take_0.
    split; [lia |]. split; [auto |]. repeat split. left; exact E.
Qed.

Lemma build_headers_tree_enough_fuel : forall fuel hs i base,
  length hs - i < fuel -> exists r, build_headers_tree_fuel fuel hs i base = Some r.
Proof.
  induction fuel as [|fuel IH]; intros hs i base Hf; [lia |].
  cbn [build_headers_tree_fuel].
  destruct (hs !! i) as [[level text]|] eqn:E; [| eexists; reflexivity].
  pose proof (lookup_lt_Some hs i _ E) as Hi.
  destruct (base <? level); [| eexists; reflexivity].
  destruct (IH hs (i + 1) level) as [[kids i'] R1]; [lia |]. rewrite R1.
  destruct (build_headers_tree_fuel_spec _ _ _ _ _ _ R1) as (Hle1 & Hlen1 & _).
  destruct (IH hs i' base) as [[sibs i''] R2]; [lia |]. rewrite R2.
  eexists; reflexivity.
Qed.

(** X1: [_build_headers_tree(headings, parent)] on headings of level 1 or
    more attaches every heading: it returns [len(headings)], the pre-order
    walk of the attached nodes lists the headings in their order, every
    top node has level 1 or more and every child node has a greater level
    than its parent. *)
Theorem build_headers_tree_covers_headings : forall headings : list (nat * string),
  Forall (fun h => 1 <= h.1) headings ->
  exists forest,
    build_headers_tree headings = Some (forest, length headings) /\
    concat (map hnode_preorder forest) = headings /\
    forallb (fun n => match n with HNode _ l _ => 0 <? l end) forest = true /\
    forallb hnode_nested forest = true.
Proof.
  intros hs Hlv. unfold build_headers_tree.
  destruct (build_headers_tree_enough_fuel (S (length hs)) hs 0 0) as [[forest j] R];
    [lia |].
  destruct (build_headers_tree_fuel_spec _ _ _ _ _ _ R) as (_ & Hlen & Hpre & Hl & Hn & Hstop).
  assert (Hj : j = length hs).
  { destruct Hstop as [Hn' | (l & t & Hl' & Hle)].
    - apply lookup_ge_None_1 in Hn'. specialize (Hlen ltac:(lia)). lia.
    - rewrite Forall_lookup in Hlv. specialize (Hlv j _ Hl'). simpl in Hlv. lia. }
  subst j. exists forest. split; [exact R |].
  rewrite Nat.sub_0_r, drop_0, take_ge in Hpre by lia. auto.
Qed.

(** *** Routes *)

Lemma str_app_cons : forall c s1 s2, String c s1 +:+ s2 = String c (s1 +:+ s2).
Proof. reflexivity. Qed.

Lemma str_app_nil : forall s, ""%string +:+ s = s.
Proof. reflexivity. Qed.

Lemma str_length_app : forall a b,
  String.length (a +:+ b) = String.length a + String.length b.
Proof.
  induction a as [|c a IH]; intros b; [reflexivity |].
  rewrite str_app_cons. cbn [String.length]. rewrite IH. reflexivity.
Qed.

Lemma substring_full : forall s, String.substring 0 (String.length s) s = s.
Proof. induction s as [|c s IH]; [reflexivity | cbn; rewrite IH; reflexivity]. Qed.

Lemma py_drop_app : forall a b, Py.drop (String.length a) (a +:+ b) = b.
Proof.
  intros a b. unfold Py.drop. rewrite str_length_app.
  replace (String.length a + String.length b - String.length a) with (String.length b) by lia.
  induction a as [|c a IH]; [apply substring_full |].
  rewrite str_app_cons. exact IH.
Qed.

Lemma startswith_app : forall a b, Py.startswith (a +:+ b) a = true.
Proof.
  unfold Py.startswith. induction a as [|c a IH]; intros b; [destruct b; reflexivity |].
  rewrite str_app_cons. cbn [String.prefix].
  destruct (ascii_dec c c) as [_|n]; [apply IH | contradiction].
Qed.

Lemma contains_char_cons : forall c a s,
  Py.contains (String c EmptyString) (String a s) =
  Ascii.eqb c a || Py.contains (String c EmptyString) s.
Proof.
  intros c a s. cbn [Py.contains String.prefix].
  destruct (ascii_dec c a) as [->|n].
  - rewrite Ascii.eqb_refl. destruct s; reflexivity.
  - apply Ascii.eqb_neq in n. rewrite n. reflexivity.
Qed.

Lemma after_host_app : forall h r,
  Py.contains "/" h = false -> after_host (h +:+ r) = after_host r.
Proof.
  induction h as [|c h IH]; intros r H; [reflexivity |].
  rewrite contains_char_cons in H. apply orb_false_iff in H as [Hc H].
  rewrite str_app_cons. cbn [after_host].
  rewrite Ascii.eqb_sym, Hc. apply IH. exact H.
Qed.

Lemma upto_newline_id : forall s,
  Py.contains (String "010"%char EmptyString) s = false -> upto_newline s = s.
Proof.
  induction s as [|c s IH]; intros H; [reflexivity |].
  rewrite contains_char_cons in H. apply orb_false_iff in H as [Hc H].
  cbn [upto_newline]. rewrite Ascii.eqb_sym, Hc, IH by exact H. reflexivity.
Qed.

Lemma extract_route_path_of_url : forall scheme host route,
  (scheme = "https://"%string \/ scheme = "http://"%string) ->
  host <> ""%string -> Py.contains "/" host = false ->
  Py.startswith route "/" = true ->
  Py.contains (String "010"%char EmptyString) route = false ->
  extract_route_path (scheme +:+ host +:+ route) = route.
Proof.
  intros scheme host route Hs Hh Hslash Hr Hnl.
  destruct host as [|a h]; [contradiction |].
  rewrite contains_char_cons in Hslash. apply orb_false_iff in Hslash as [Ha Hh'].
  destruct route as [|r0 route]; [discriminate Hr |].
  unfold Py.startswith in Hr. cbn [String.prefix] in Hr.
  destruct (ascii_dec "/"%char r0) as [<-|]; [| discriminate Hr].
  assert (Hafter : after_host (h +:+ String "/" route) = Some (String "/" route)).
  { rewrite after_host_app by exact Hh'. reflexivity. }
  unfold extract_route_path.
  destruct Hs as [-> | ->].
  - rewrite (startswith_app "https://"%string).
    rewrite (py_drop_app "https://"%string). rewrite str_app_cons.
    rewrite Ascii.eqb_sym, Ha, Hafter. apply upto_newline_id. exact Hnl.
  - replace (Py.startswith ("http://" +:+ String a h +:+ String "/" route) "https://")
      with false by reflexivity.
    rewrite (startswith_app "http://"%string).
    rewrite (py_drop_app "http://"%string). rewrite str_app_cons.
    rewrite Ascii.eqb_sym, Ha, Hafter. apply upto_newline_id. exact Hnl.
Qed.

Lemma extract_route_path_plain : forall txt,
  Py.startswith txt "https://" = false -> Py.startswith txt "http://" = false ->
  extract_route_path txt = txt.
Proof. intros txt H1 H2. unfold extract_route_path. rewrite H1, H2. reflexivity. Qed.

(** X2: [_extract_route_path] gives back the path of a full URL: for a
    non-empty host without ['/'] and a path that starts with ['/'] and has
    no newline, the URL ["http://" + host + path] or ["https://" + host +
    path] is mapped to the path; a text that starts with neither scheme is
    returned unchanged. *)
Theorem extract_route_path_url : forall scheme host route txt,
  (scheme = "https://"%string \/ scheme = "http://"%string) ->
  host <> ""%string -> Py.contains "/" host = false ->
  Py.startswith route "/" = true ->
  Py.contains (String "010"%char EmptyString) route = false ->
  Py.startswith txt "https://" = false -> Py.startswith txt "http://" = false ->
  extract_route_path (scheme +:+ host +:+ route) = route /\
  extract_route_path txt = txt.
Proof.
  intros scheme host route txt Hs Hh Hslash Hr Hnl Ht1 Ht2. split.
  - apply extract_route_path_of_url; assumption.
  - apply extract_route_path_plain; assumption.
Qed.

(** X3: [contains_route] checks a full URL exactly as it checks its path:
    for a non-empty host without ['/'] and a path that starts with ['/']
    and has no newline, [contains_route] answers the same for
    ["http://" + host + path], ["https://" + host + path] and the path. *)
Theorem contains_route_url_as_path : forall fs p scheme host route src,
  (scheme = "https://"%string \/ scheme = "http://"%string) ->
  host <> ""%string -> Py.contains "/" host = false ->
  Py.startswith route "/" = true ->
  Py.contains (String "010"%char EmptyString) route = false ->
  contains_route fs p (scheme +:+ host +:+ route) src = contains_route fs p route src.
Proof.
  intros fs p scheme host route src Hs Hh Hslash Hr Hnl.
  assert (Hnot : Py.startswith route "https://" = false /\ Py.startswith route "http://" = false).
  { destruct route as [|r0 route]; [discriminate Hr |].
    unfold Py.startswith in Hr |- *. cbn [String.prefix] in Hr.
    destruct (ascii_dec "/"%char r0) as [<-|]; [| discriminate Hr].
    split; reflexivity. }
  unfold contains_route.
  rewrite (extract_route_path_of_url scheme host route Hs Hh Hslash Hr Hnl).
  rewrite (extract_route_path_plain route (proj1 Hnot) (proj2 Hnot)). reflexivity.
Qed.

(** *** Documentation paths of a project *)

Lemma readme_fold_spec : forall (files acc : list path),
  let r := fold_left (fun acc f =>
                        if Py.startswith (name f) "README" && negb (bool_decide (f ∈ acc))
                        then acc ++ [f] else acc) files acc in
  (exists added, r = acc ++ added /\
     forall d, d ∈ added -> d ∈ files /\ Py.startswith (name d) "README" = true) /\
  (forall f, f ∈ acc -> f ∈ r) /\
  (forall f, f ∈ files -> Py.startswith (name f) "README" = true -> f ∈ r) /\
  (NoDup acc -> NoDup r).
Proof.
  induction files as [|x files IH]; intros acc r; subst r; cbn [fold_left].
  - split; [exists []; rewrite app_nil_r; split; [reflexivity | intros d Hd; inversion Hd] |].
    split; [auto |]. split; [intros f Hf; inversion Hf | auto].
  - destruct (Py.startswith (name x) "README") eqn:Ex; cbn [andb negb];
      [case_bool_decide as Hin |]; cbn [negb].
    + (* already present *)
      destruct (IH acc) as ([added [Hr Hadd]] & Hkeep & Hall & Hnd).
      split; [exists added; split; [exact Hr |] |].
      { intros d Hd. destruct (Hadd d Hd) as [H1 H2].
        split; [apply elem_of_cons; right; exact H1 | exact H2]. }
      split; [exact Hkeep |]. split; [| exact Hnd].
      intros f Hf Hrf. apply elem_of_cons in Hf as [->|Hf]; [apply Hkeep; exact Hin |].
      apply Hall; assumption.
    + destruct (IH (acc ++ [x])) as ([added [Hr Hadd]] & Hkeep & Hall & Hnd).
      split; [exists (x :: added); split; [rewrite Hr, <- app_assoc; reflexivity |] |].
      { intros d Hd. apply elem_of_cons in Hd as [->|Hd].
        - split; [apply elem_of_cons; left; reflexivity | exact Ex].
        - destruct (Hadd d Hd) as [H1 H2].
          split; [apply elem_of_cons; right; exact H1 | exact H2]. }
      split; [intros f Hf; apply Hkeep; apply elem_of_app; left; exact Hf |].
      split.
      * intros f Hf Hrf. apply elem_of_cons in Hf as [->|Hf].
        -- apply Hkeep. apply elem_of_app. right. apply list_elem_of_singleton. reflexivity.
        -- apply Hall; assumption.
      * intros Hacc. apply Hnd. apply NoDup_app. split; [exact Hacc |].
        split; [| apply NoDup_singleton].
        intros y Hy Hy'. apply list_elem_of_singleton in Hy'. subst y. contradiction.
    + destruct (IH acc) as ([added [Hr Hadd]] & Hkeep & Hall & Hnd).
      split; [exists added; split; [exact Hr |] |].
      { intros d Hd. destruct (Hadd d Hd) as [H1 H2].
        split; [apply elem_of_cons; right; exact H1 | exact H2]. }
      split; [exact Hkeep |]. split; [| exact Hnd].
      intros f Hf Hrf. apply elem_of_cons in Hf as [->|Hf]; [congruence |].
      apply Hall; assumption.
Qed.

Lemma project_init_doc_paths : forall fs root config files,
  let r := doc_paths (project_init fs root config files) in
  (exists added, r = configured_doc_paths root config ++ added /\
     forall d, d ∈ added -> d ∈ files /\ Py.startswith (name d) "README" = true) /\
  (forall f, f ∈ configured_doc_paths root config -> f ∈ r) /\
  (forall f, f ∈ files -> Py.startswith (name f) "README" = true -> f ∈ r) /\
  (NoDup (configured_doc_paths root config) -> NoDup r).
Proof.
  intros fs root config files r. subst r. unfold project_init. cbn [doc_paths].
  exact (readme_fold_spec files (configured_doc_paths root config)).
Qed.

(** X4: [Project.__init__] adds every project file whose name starts with
    ["README"] to [doc_paths], after the configured documentation paths
    (which it keeps in order): [doc_paths] is the configured paths followed
    by README files of the project only, and it holds no path twice when
    the configured paths hold none twice. *)
Theorem project_init_readme_paths : forall fs root config files,
  let r := doc_paths (project_init fs root config files) in
  (exists added, r = configured_doc_paths root config ++ added /\
     forall d, d ∈ added -> d ∈ files /\ Py.startswith (name d) "README" = true) /\
  (forall f, f ∈ files -> Py.startswith (name f) "README" = true -> f ∈ r) /\
  (NoDup (configured_doc_paths root config) -> NoDup r).
Proof.
  intros fs root config files r.
  destruct (project_init_doc_paths fs root config files) as (H1 & _ & H3 & H4).
  split; [exact H1 |]. split; [exact H3 | exact H4].
Qed.

(** X5: in a project built by [Project.__init__], [contains_string] never
    succeeds through a README file or a configured documentation path: when
    it returns [True], some project file that is neither contains the
    string. *)
Theorem contains_string_skips_readme : forall fs root config files s src,
  contains_string fs (project_init fs root config files) s src = true ->
  exists f, f ∈ files /\ Py.startswith (name f) "README" = false /\
            (f ∉ configured_doc_paths root config) /\
            Py.contains s (fs_read_text fs f) = true.
Proof.
  intros fs root config files s src H.
  apply contains_string_spec in H as (f & Hf & Hnd & Hc).
  destruct (project_init_doc_paths fs root config files) as (_ & Hconf & Hread & _).
  cbn [project_files project_init] in Hf.
  exists f. split; [exact Hf |]. split; [| split; [| exact Hc]].
  - destruct (Py.startswith (name f) "README") eqn:E; [| reflexivity].
    exfalso. apply Hnd. apply Hread; assumption.
  - intros Hin. apply Hnd. apply Hconf. exact Hin.
Qed.

(** *** Documents of a project *)

Lemma rfind_get : forall c s i, Py.rfind c s = Some i -> String.get i s = Some c.
Proof.
  intros c s. induction s as [|a s IH]; intros i H; [discriminate H |].
  cbn [Py.rfind] in H. destruct (Py.rfind c s) as [j|] eqn:E.
  - injection H as <-. cbn [String.get]. apply IH. reflexivity.
  - destruct (Ascii.eqb a c) eqn:Ea; [| discriminate H].
    injection H as <-. apply Ascii.eqb_eq in Ea. subst a. reflexivity.
Qed.

Lemma drop_get : forall s i c, String.get i s = Some c -> exists r, Py.drop i s = String c r.
Proof.
  unfold Py.drop. induction s as [|a s IH]; intros i c H; [destruct i; discriminate H |].
  destruct i as [|i].
  - cbn in H. injection H as <-. cbn [String.length]. rewrite Nat.sub_0_r.
    eexists. reflexivity.
  - cbn [String.get] in H. cbn [String.length]. replace (S (String.length s) - S i)
      with (String.length s - i) by lia.
    destruct (IH i c H) as [r Hr]. exists r. exact Hr.
Qed.

Lemma suffix_of_name_shape : forall nm,
  suffix_of_name nm = ""%string \/ exists r, suffix_of_name nm = String "." r.
Proof.
  intros nm. unfold suffix_of_name.
  destruct (Py.rfind "." nm) as [i|] eqn:E; [| left; reflexivity].
  destruct ((0 <? i) && (i <? String.length nm - 1)); [| left; reflexivity].
  right. apply drop_get. apply (rfind_get "."%char). exact E.
Qed.

Lemma lower_suffix_supported : forall f,
  Py.lower (suffix f) ∈ SUPPORTED_FORMATS ->
  Py.lower (suffix f) = ".md"%string \/ Py.lower (suffix f) = ".markdown"%string.
Proof.
  intros f H. unfold suffix in *.
  destruct (suffix_of_name_shape (name f)) as [E | [r E]]; rewrite E in *.
  - cbn in H. apply elem_of_cons in H as [H|H]; [discriminate H |].
    apply elem_of_cons in H as [H|H]; [discriminate H |].
    apply list_elem_of_singleton in H. discriminate H.
  - unfold SUPPORTED_FORMATS in H. cbn [Py.lower] in *.
    apply elem_of_cons in H as [H|H]; [left; exact H |].
    apply elem_of_cons in H as [H|H]; [right; exact H |].
    apply list_elem_of_singleton in H. discriminate H.
Qed.

(** X6: [Documentation.from_project] only makes [DocFile]s of markdown
    files: each document comes from a documentation path that is a file
    (the path itself) or, when it is not a file, a directory (a file of its
    walk), and its lowercased suffix is [.md] or [.markdown]. The entry
    ["markdown"] of [SUPPORTED_FORMATS] never matches a file suffix. *)
Theorem from_project_markdown_files : forall fs dpaths dp,
  dp ∈ from_project fs dpaths ->
  exists d f, d ∈ dpaths /\
    ((fs_is_file fs d = true /\ f = d) \/
     (fs_is_file fs d = false /\ fs_is_dir fs d = true /\ f ∈ fs_walk_files fs d)) /\
    dp = DocFile f /\
    (Py.lower (suffix f) = ".md"%string \/ Py.lower (suffix f) = ".markdown"%string).
Proof.
  intros fs dpaths dp H. unfold from_project in H.
  apply list_elem_of_In, in_concat in H as (l & Hl & Hdp).
  apply in_map_iff in Hl as (d & <- & Hd).
  assert (Hpf : forall f, In dp (process_file f) ->
            dp = DocFile f /\ Py.lower (suffix f) ∈ SUPPORTED_FORMATS).
  { intros f Hf. unfold process_file in Hf. case_bool_decide as Hs; [| destruct Hf].
    destruct Hf as [<- | []]. split; [reflexivity | exact Hs]. }
  exists d. destruct (fs_is_file fs d) eqn:Ef.
  - destruct (Hpf d Hdp) as [-> Hs]. exists d.
    split; [apply list_elem_of_In; exact Hd |]. split; [left; split; reflexivity |].
    split; [reflexivity | apply lower_suffix_supported; exact Hs].
  - destruct (fs_is_dir fs d) eqn:Ed; [| destruct Hdp].
    unfold process_folder in Hdp. apply in_concat in Hdp as (l & Hl & Hdp).
    apply in_map_iff in Hl as (f & <- & Hf).
    destruct (Hpf f Hdp) as [-> Hs]. exists f.
    split; [apply list_elem_of_In; exact Hd |].
    split; [right; split; [reflexivity | split; [reflexivity | apply list_elem_of_In; exact Hf]] |].
    split; [reflexivity | apply lower_suffix_supported; exact Hs].
Qed.

(** *** Extraction over several pattern lists *)

Section ExtractionAppend.

Variable fs : FileSystem.
Variable find_all : SearchPattern -> DocPart -> list string.

Lemma visit_match_grows : forall pattern dp st m,
  exists extra, (visit_match pattern dp st m).1 = st.1 ++ extra /\
    forall a, a ∈ extra -> art_pattern a = pattern.
Proof.
  intros pattern dp [arts cache] m. unfold visit_match.
  destruct (0 <? Py.count_control m).
  - exists []. rewrite app_nil_r. split; [reflexivity | intros a Ha; inversion Ha].
  - destruct (cache !! m).
    + exists []. rewrite app_nil_r. split; [reflexivity | intros a Ha; inversion Ha].
    + eexists. split; [reflexivity |].
      intros a Ha. apply list_elem_of_singleton in Ha. subst a. reflexivity.
Qed.

Lemma fold_grows {A S} (f : S -> A -> S) (proj : S -> list Artifact) (P : Artifact -> Prop) :
  (forall st x, exists extra, proj (f st x) = proj st ++ extra /\ forall a, a ∈ extra -> P a) ->
  forall l st, exists extra, proj (fold_left f l st) = proj st ++ extra /\
    forall a, a ∈ extra -> P a.
Proof.
  intros Hf l. induction l as [|x l IH]; intros st; cbn [fold_left].
  - exists []. rewrite app_nil_r. split; [reflexivity | intros a Ha; inversion Ha].
  - destruct (Hf st x) as [e1 [H1 P1]]. destruct (IH (f st x)) as [e2 [H2 P2]].
    exists (e1 ++ e2). rewrite H2, H1, app_assoc. split; [reflexivity |].
    intros a Ha. apply elem_of_app in Ha as [Ha|Ha]; auto.
Qed.

Lemma visit_doc_grows : forall pattern st dp,
  exists extra, (visit_doc fs find_all pattern st dp).1 = st.1 ++ extra /\
    forall a, a ∈ extra -> art_pattern a = pattern.
Proof.
  intros pattern st dp. unfold visit_doc.
  destruct (binary_content (read fs dp)).
  - exists []. rewrite app_nil_r. split; [reflexivity | intros a Ha; inversion Ha].
  - apply (fold_grows (visit_match pattern dp) fst (fun a => art_pattern a = pattern)).
    intros st' m. apply visit_match_grows.
Qed.

Lemma patterns_fold_grows : forall p ps st,
  exists extra,
    (fold_left (fun st pattern => fold_left (visit_doc fs find_all pattern) (doc_parts p) st)
               ps st).1 = st.1 ++ extra /\
    forall a, a ∈ extra -> art_pattern a ∈ ps.
Proof.
  intros p ps. induction ps as [|x ps IH]; intros st; cbn [fold_left].
  - exists []. rewrite app_nil_r. split; [reflexivity | intros a Ha; inversion Ha].
  - destruct (fold_grows (visit_doc fs find_all x) fst (fun a => art_pattern a = x)
                (visit_doc_grows x) (doc_parts p) st) as [e1 [H1 P1]].
    destruct (IH (fold_left (visit_doc fs find_all x) (doc_parts p) st)) as [e2 [H2 P2]].
    exists (e1 ++ e2). rewrite H2, H1, app_assoc. split; [reflexivity |].
    intros a Ha. apply elem_of_app in Ha as [Ha|Ha].
    + rewrite (P1 a Ha). apply elem_of_cons. left. reflexivity.
    + apply elem_of_cons. right. apply P2. exact Ha.
Qed.

(** X7: extending the pattern list of [collect_docs_artifacts] never
    drops or reorders what the first patterns collect: the artifacts for
    [ps1 ++ ps2] are the artifacts for [ps1] followed by artifacts whose
    pattern is one of [ps2]. *)
Theorem collect_docs_artifacts_app : forall p ps1 ps2,
  exists extra,
    collect_docs_artifacts fs find_all p (ps1 ++ ps2) =
    collect_docs_artifacts fs find_all p ps1 ++ extra /\
    forall a, a ∈ extra -> art_pattern a ∈ ps2.
Proof.
  intros p ps1 ps2. unfold collect_docs_artifacts. rewrite fold_left_app.
  apply patterns_fold_grows.
Qed.

End ExtractionAppend.

(** *** Shape of the TCP-port matches *)







(** *** The module catalog and the unused-modules report *)

Lemma dict_set_elem {V} : forall k (v : V) d m x,
  (m, x) ∈ dict_set k v d <-> (m = k /\ x = v) \/ ((m, x) ∈ d /\ m <> k).
Proof.
  intros k v d m x. unfold dict_set.
  destruct (existsb (fun kv => String.eqb kv.1 k) d) eqn:He.
  - rewrite list_elem_of_In, in_map_iff. split.
    + intros [[a b] [Heq Hin]]. cbn in Heq. destruct (String.eqb_spec a k) as [->|Hne].
      * left. injection Heq as <- <-. auto.
      * right. injection Heq as -> ->. split; [apply list_elem_of_In; exact Hin | exact Hne].
    + intros [[-> ->] | [Hin Hne]].
      * apply existsb_exists in He as [[a b] [Hin Ha]]. cbn in Ha.
        exists (a, b). cbn. rewrite Ha. apply String.eqb_eq in Ha. subst a. auto.
      * exists (m, x). cbn. apply String.eqb_neq in Hne. rewrite Hne.
        split; [reflexivity | apply list_elem_of_In; exact Hin].
  - rewrite elem_of_app, list_elem_of_singleton. split.
    + intros [Hin | Heq]; [right | left; injection Heq as -> ->; auto].
      split; [exact Hin |]. intros ->.
      assert (existsb (fun kv => String.eqb kv.1 k) d = true) as Hc; [| congruence].
      apply existsb_exists. exists (k, x). split; [apply list_elem_of_In; exact Hin |].
      apply String.eqb_refl.
    + intros [[-> ->] | [Hin _]]; [right; reflexivity | left; exact Hin].
Qed.

Lemma get_module_name_from_file_result : forall proj f,
  (relative_to f (project_root proj) = None ->
     UnusedModules.get_module_name_from_file proj f = PyErr ValueError) /\
  (relative_to f (project_root proj) <> None ->
     exists m, UnusedModules.get_module_name_from_file proj f = PyOk m).
Proof.
  intros proj f. unfold UnusedModules.get_module_name_from_file.
  destruct (relative_to f (project_root proj)) as [r|]; split; intros H;
    [discriminate H | | reflexivity | contradiction].
  destruct (List.filter _ _); eexists; reflexivity.
Qed.

Section Catalog.

Variable sup : string -> bool.
Variable proj : Project.

Local Abbreviation qualifies := (qualifies sup proj).
Local Abbreviation catalog_step := (catalog_step sup proj).
Local Abbreviation latest := (latest sup proj).

Lemma collect_all_modules_fold :
  UnusedModules.collect_all_modules sup proj = py_fold catalog_step (project_files proj) [].
Proof. reflexivity. Qed.

Lemma catalog_step_cases : forall modules file,
  (~ qualifies file /\ catalog_step modules file = PyOk modules) \/
  (qualifies file /\ exists m,
     UnusedModules.get_module_name_from_file proj file = PyOk m /\
     catalog_step modules file = PyOk (dict_set m file modules)) \/
  (qualifies file /\ relative_to file (project_root proj) = None /\
     catalog_step modules file = PyErr ValueError).
Proof.
  intros modules file. unfold catalog_step, qualifies.
  destruct (UnusedModules.is_test_file file) eqn:Et.
  { left. split; [intros (H & _); discriminate H | reflexivity]. }
  destruct (UnusedModules.is_entry_point_file proj file) eqn:Ee.
  { left. split; [intros (_ & H & _); discriminate H | reflexivity]. }
  destruct (sup (Py.lower (suffix file))) eqn:Es.
  2:{ left. split; [intros (_ & _ & H); discriminate H | reflexivity]. }
  destruct (get_module_name_from_file_result proj file) as [Hn Hs].
  destruct (relative_to file (project_root proj)) as [r|] eqn:Er.
  - destruct (Hs ltac:(discriminate)) as [m Hm]. right; left.
    split; [auto |]. exists m. rewrite Hm. auto.
  - right; right. rewrite (Hn eq_refl). auto.
Qed.

Lemma catalog_fold_latest : forall l pre acc mods,
  (forall m f, (m, f) ∈ acc <-> latest pre m f) ->
  py_fold catalog_step l acc = PyOk mods ->
  forall m f, (m, f) ∈ mods <-> latest (pre ++ l) m f.
Proof.
  induction l as [|x l IH]; intros pre acc mods Hinv H.
  - injection H as <-. rewrite app_nil_r. exact Hinv.
  - cbn [py_fold] in H. rewrite cons_middle, app_assoc.
    destruct (catalog_step_cases acc x) as [[Hq E] | [[Hq [mx [Hm E]]] | (_ & _ & E)]];
      rewrite E in H; cbn [py_bind] in H; [| | discriminate H].
    + apply (IH (pre ++ [x]) acc mods); [| exact H].
      intros m f. rewrite Hinv. split.
      * intros (a & b & -> & Hf & Hmf & Hb). exists a, (b ++ [x]).
        split; [rewrite <- app_assoc; reflexivity |]. split; [exact Hf |]. split; [exact Hmf |].
        intros g Hg Hqg. apply elem_of_app in Hg as [Hg | Hg]; [apply Hb; assumption |].
        apply list_elem_of_singleton in Hg. subst g. contradiction.
      * intros (a & b & Heq & Hf & Hmf & Hb).
        destruct b as [|y b _] using rev_ind.
        -- apply app_inj_tail in Heq as [-> ->]. contradiction.
        -- rewrite app_comm_cons, app_assoc in Heq. apply app_inj_tail in Heq as [-> <-].
           exists a, b. split; [reflexivity |]. split; [exact Hf |]. split; [exact Hmf |].
           intros g Hg Hqg. apply Hb; [apply elem_of_app; left; exact Hg | exact Hqg].
    + apply (IH (pre ++ [x]) (dict_set mx x acc) mods); [| exact H].
      intros m f. rewrite dict_set_elem, Hinv. split.
      * intros [[-> ->] | [(a & b & -> & Hf & Hmf & Hb) Hne]].
        -- exists pre, []. split; [reflexivity |]. split; [exact Hq |]. split; [exact Hm |].
           intros g Hg. inversion Hg.
        -- exists a, (b ++ [x]).
           split; [rewrite <- app_assoc; reflexivity |]. split; [exact Hf |].
           split; [exact Hmf |].
           intros g Hg Hqg. apply elem_of_app in Hg as [Hg | Hg]; [apply Hb; assumption |].
           apply list_elem_of_singleton in Hg. subst g. rewrite Hm. congruence.
      * intros (a & b & Heq & Hf & Hmf & Hb).
        destruct b as [|y b _] using rev_ind.
        -- apply app_inj_tail in Heq as [-> ->]. left. rewrite Hm in Hmf.
           injection Hmf as ->. auto.
        -- rewrite app_comm_cons, app_assoc in Heq. apply app_inj_tail in Heq as [-> <-].
           right. split.
           ++ exists a, b. split; [reflexivity |]. split; [exact Hf |]. split; [exact Hmf |].
              intros g Hg Hqg. apply Hb; [apply elem_of_app; left; exact Hg | exact Hqg].
           ++ intros ->. apply (Hb x); [apply elem_of_app; right; apply list_elem_of_singleton;
                                       reflexivity | exact Hq | exact Hm].
Qed.

Lemma catalog_fold_error : forall l acc e,
  py_fold catalog_step l acc = PyErr e ->
  e = ValueError /\ exists f, f ∈ l /\ qualifies f /\ relative_to f (project_root proj) = None.
Proof.
  induction l as [|x l IH]; intros acc e H; [discriminate H |].
  cbn [py_fold] in H.
  destruct (catalog_step_cases acc x) as [[_ E] | [[_ [mx [_ E]]] | (Hq & Hr & E)]];
    rewrite E in H; cbn [py_bind] in H.
  - destruct (IH _ _ H) as [-> [f [Hf Hff]]].
    split; [reflexivity |]. exists f. split; [apply elem_of_cons; right; exact Hf | exact Hff].
  - destruct (IH _ _ H) as [-> [f [Hf Hff]]].
    split; [reflexivity |]. exists f. split; [apply elem_of_cons; right; exact Hf | exact Hff].
  - injection H as <-. split; [reflexivity |]. exists x.
    split; [apply elem_of_cons; left; reflexivity | auto].
Qed.

Lemma catalog_fold_ok : forall l acc,
  (forall f, f ∈ l -> qualifies f -> relative_to f (project_root proj) <> None) ->
  exists mods, py_fold catalog_step l acc = PyOk mods.
Proof.
  induction l as [|x l IH]; intros acc H; [eexists; reflexivity |].
  cbn [py_fold].
  assert (Hl : forall f, f ∈ l -> qualifies f -> relative_to f (project_root proj) <> None).
  { intros f Hf. apply H. apply elem_of_cons. right. exact Hf. }
  destruct (catalog_step_cases acc x) as [[_ E] | [[_ [mx [_ E]]] | (Hq & Hr & E)]];
    rewrite E; cbn [py_bind]; [apply IH; exact Hl | apply IH; exact Hl |].
  exfalso. apply (H x); [apply elem_of_cons; left; reflexivity | exact Hq | exact Hr].
Qed.

(** X9: [collect_all_modules] raises only [ValueError], and only when a file
    it would turn into a module (not a test, not an entry point, of a
    supported format) lies outside the project root; when every such file
    lies under the root it returns. *)
Theorem collect_all_modules_raises_outside_root :
  (forall e, UnusedModules.collect_all_modules sup proj = PyErr e ->
     e = ValueError /\
     exists f, f ∈ project_files proj /\ qualifies f /\ relative_to f (project_root proj) = None) /\
  ((forall f, f ∈ project_files proj -> qualifies f -> relative_to f (project_root proj) <> None) ->
     exists mods, UnusedModules.collect_all_modules sup proj = PyOk mods).
Proof.
  rewrite collect_all_modules_fold. split.
  - intros e H. exact (catalog_fold_error _ _ _ H).
  - intros H. apply catalog_fold_ok. exact H.
Qed.

Lemma collect_all_modules_latest : forall mods,
  UnusedModules.collect_all_modules sup proj = PyOk mods ->
  forall m f, (m, f) ∈ mods <-> latest (project_files proj) m f.
Proof.
  intros mods H. rewrite collect_all_modules_fold in H.
  apply (catalog_fold_latest (project_files proj) [] [] mods); [| exact H].
  intros m f. split; [intros Hin; inversion Hin |].
  intros (a & b & Heq & _). destruct a; discriminate Heq.
Qed.

(** X10: when two files map to the same module name, [collect_all_modules]
    keeps the last one: the catalog holds [(m, f)] exactly when [f] is a
    project file it turns into module [m] and no later such project file
    is also turned into [m]. *)
Theorem collect_all_modules_last_file_wins : forall mods,
  UnusedModules.collect_all_modules sup proj = PyOk mods ->
  forall m f, (m, f) ∈ mods <->
    exists a b, project_files proj = a ++ f :: b /\ qualifies f /\
      UnusedModules.get_module_name_from_file proj f = PyOk m /\
      forall g, g ∈ b -> qualifies g -> UnusedModules.get_module_name_from_file proj g <> PyOk m.
Proof. intros mods H m f. exact (collect_all_modules_latest mods H m f). Qed.

Lemma collect_all_modules_under_root : forall mods,
  UnusedModules.collect_all_modules sup proj = PyOk mods ->
  forall m f, (m, f) ∈ mods -> relative_to f (project_root proj) <> None.
Proof.
  intros mods H m f Hin. apply (collect_all_modules_latest mods H) in Hin
    as (a & b & _ & _ & Hm & _).
  intros Hr. destruct (get_module_name_from_file_result proj f) as [Hn _].
  rewrite (Hn Hr) in Hm. discriminate Hm.
Qed.

End Catalog.

Lemma unused_among_fold_elem : forall (I : gset string) (l acc : list (string * path)) kv,
  kv ∈ fold_left (fun unused_modules '(module_name, file_path) =>
                    if UnusedModules.is_imported module_name I then unused_modules
                    else dict_set module_name file_path unused_modules) l acc ->
  kv ∈ acc \/ kv ∈ l.
Proof.
  intros I l. induction l as [|[m f] l IH]; intros acc kv H; cbn [fold_left] in H; [auto |].
  destruct (IH _ _ H) as [H1 | H1].
  - destruct (UnusedModules.is_imported m I); [auto |].
    destruct kv as [k v]. apply dict_set_elem in H1 as [[-> ->] | [H1 _]].
    + right. apply elem_of_cons. left. reflexivity.
    + auto.
  - right. apply elem_of_cons. right. exact H1.
Qed.

Lemma unused_among_sub : forall mods I kv, kv ∈ UnusedModules.unused_among mods I -> kv ∈ mods.
Proof.
  intros mods I kv H. unfold UnusedModules.unused_among in H.
  destruct (unused_among_fold_elem I mods [] kv H) as [H1 | H1]; [inversion H1 | exact H1].
Qed.

Lemma dict_append_elem {V} : forall k (x : V) d k' ms y,
  (k', ms) ∈ dict_append k x d -> y ∈ ms ->
  y = x \/ exists ms0, (k', ms0) ∈ d /\ y ∈ ms0.
Proof.
  intros k x d k' ms y H Hy. unfold dict_append in H.
  destruct (existsb (fun kv => String.eqb kv.1 k) d).
  - apply list_elem_of_In, in_map_iff in H as [[a b] [Heq Hin]]. cbn in Heq.
    destruct (String.eqb_spec a k) as [->|].
    + injection Heq as <- <-. apply elem_of_app in Hy as [Hy | Hy].
      * right. exists b. split; [apply list_elem_of_In; exact Hin | exact Hy].
      * left. apply list_elem_of_singleton. exact Hy.
    + injection Heq as -> ->. right. exists ms. split; [apply list_elem_of_In; exact Hin | exact Hy].
  - apply elem_of_app in H as [H | H].
    + right. exists ms. auto.
    + apply list_elem_of_singleton in H. injection H as -> ->.
      left. apply list_elem_of_singleton. exact Hy.
Qed.

Lemma group_fold_elem : forall (u : list (string * path)) acc k ms y,
  (k, ms) ∈ fold_left (fun by_ext '(module_name, file_path) =>
                         dict_append (Py.lower (suffix file_path)) (module_name, file_path) by_ext)
                      u acc ->
  y ∈ ms -> y ∈ u \/ exists ms0, (k, ms0) ∈ acc /\ y ∈ ms0.
Proof.
  induction u as [|[m f] u IH]; intros acc k ms y H Hy; cbn [fold_left] in H.
  - right. exists ms. auto.
  - destruct (IH _ _ _ _ H Hy) as [H1 | (ms0 & H0 & Hy0)].
    + left. apply elem_of_cons. right. exact H1.
    + destruct (dict_append_elem _ _ _ _ _ _ H0 Hy0) as [-> | H2].
      * left. apply elem_of_cons. left. reflexivity.
      * right. exact H2.
Qed.

Lemma insert_sorted_perm : forall x l, UnusedModules.insert_sorted x l ≡ₚ x :: l.
Proof.
  intros x l. induction l as [|y l IH]; cbn [UnusedModules.insert_sorted]; [reflexivity |].
  destruct (String.leb x.1 y.1); [reflexivity |].
  rewrite IH. apply perm_swap.
Qed.

Lemma sort_modules_perm : forall l, UnusedModules.sort_modules l ≡ₚ l.
Proof.
  induction l as [|x l IH]; [reflexivity |]. unfold UnusedModules.sort_modules in *.
  cbn [fold_right]. rewrite insert_sorted_perm, IH. reflexivity.
Qed.

Lemma py_fold_all_ok {A B} (f : B -> A -> PyResult B) (l : list A) :
  (forall x, x ∈ l -> forall b, exists b', f b x = PyOk b') ->
  forall b, exists r, py_fold f l b = PyOk r.
Proof.
  induction l as [|x l IH]; intros H b; [eexists; reflexivity |].
  cbn [py_fold]. destruct (H x ltac:(apply elem_of_cons; left; reflexivity) b) as [b' ->].
  cbn [py_bind]. apply IH. intros y Hy. apply H. apply elem_of_cons. right. exact Hy.
Qed.

Lemma py_fold_extends (f : string -> (string * list (string * path)) -> PyResult string) :
  forall l b r,
  (forall b x b', f b x = PyOk b' -> exists t, b' = b +:+ t) ->
  py_fold f l b = PyOk r -> exists t, r = b +:+ t.
Proof.
  induction l as [|x l IH]; intros b r Hf H.
  - injection H as <-. exists ""%string. clear. induction b as [|c b IH]; [reflexivity |].
    rewrite str_app_cons, <- IH. reflexivity.
  - cbn [py_fold] in H. destruct (f b x) as [b'|e] eqn:E; [| discriminate H].
    cbn [py_bind] in H. destruct (IH _ _ Hf H) as [t2 ->].
    destruct (Hf _ _ _ E) as [t1 ->]. exists (t1 +:+ t2). apply str_app_assoc.
Qed.

Section Report.

Variable sup : string -> bool.
Variable ext : path -> list string.
Variable proj : Project.

(** The body of the report for a non-empty list of unused modules. *)
Lemma report_body_ok : forall mods,
  UnusedModules.collect_all_modules sup proj = PyOk mods ->
  let u := UnusedModules.unused_among mods (UnusedModules.collect_all_imports sup ext proj) in
  u <> [] ->
  exists mid,
    UnusedModules.report sup ext proj =
    PyOk ("Found " +:+ Py.str_of_nat (length u) +:+ " unused modules:" +:+
          UnusedModules.nl +:+ UnusedModules.nl +:+ mid +:+ UnusedModules.nl +:+
          "Total unused modules: " +:+ Py.str_of_nat (length u))%string.
Proof.
  intros mods Hc u Hu.
  unfold UnusedModules.report, UnusedModules.find_unused_modules. rewrite Hc. cbn [py_bind].
  fold u. destruct u as [|u0 us] eqn:Eu; [contradiction |]. rewrite <- Eu.
  set (by_ext := fold_left _ u []).
  set (header := ("Found " +:+ Py.str_of_nat (length u) +:+ " unused modules:" +:+
                  UnusedModules.nl +:+ UnusedModules.nl)%string).
  match goal with |- exists mid, py_bind (py_fold ?F by_ext header) _ = _ =>
    set (step := F) end.
  assert (Hstep : forall x, x ∈ by_ext -> forall b, exists b', step b x = PyOk b').
  { intros [k ms] Hx b. unfold step. cbn beta iota.
    apply py_fold_all_ok. intros [m f] Hmf acc.
    assert (Hin : (m, f) ∈ mods).
    { rewrite (sort_modules_perm ms) in Hmf.
      destruct (group_fold_elem u [] k ms (m, f) Hx Hmf) as [H1 | (ms0 & H0 & _)];
        [| inversion H0].
      apply (unused_among_sub mods (UnusedModules.collect_all_imports sup ext proj)).
      exact H1. }
    pose proof (collect_all_modules_under_root sup proj mods Hc m f Hin) as Hr.
    destruct (relative_to f (project_root proj)); [eexists; reflexivity | contradiction]. }
  destruct (py_fold_all_ok step by_ext Hstep header) as [body Hbody].
  assert (Hext : forall b x b', step b x = PyOk b' -> exists t, b' = b +:+ t).
  { intros b [k ms] b' H. unfold step in H. cbn beta iota in H.
    set (acc0 := (b +:+ _)%string) in H.
    assert (Hinner : forall l a r,
      py_fold (fun acc '(module_name, file_path) =>
                 match relative_to file_path (project_root proj) with
                 | Some rel => PyOk (acc +:+ "  - " +:+ module_name +:+ " (" +:+
                                     to_string rel +:+ ")" +:+ UnusedModules.nl)%string
                 | None => PyErr ValueError
                 end) l a = PyOk r -> exists t, r = a +:+ t).
    { induction l as [|[m f] l IH]; intros a r Hl.
      - injection Hl as <-. exists ""%string. clear. induction a as [|c a IH]; [reflexivity |].
        rewrite str_app_cons, <- IH. reflexivity.
      - cbn [py_fold] in Hl. destruct (relative_to f (project_root proj)) as [rel|];
          [| discriminate Hl].
        cbn [py_bind] in Hl. destruct (IH _ _ Hl) as [t ->].
        eexists. rewrite !str_app_assoc. reflexivity. }
    destruct (Hinner _ _ _ H) as [t ->]. unfold acc0. eexists. rewrite !str_app_assoc.
    reflexivity. }
  destruct (py_fold_extends step by_ext header body Hext Hbody) as [mid ->].
  rewrite Hbody. cbn [py_bind]. exists mid. unfold header. rewrite !str_app_assoc.
  reflexivity.
Qed.

(** X11: the unused-modules report raises exactly when [collect_all_modules]
    raises, with the same exception: the [relative_to] calls of its
    listing loop never fail, since each listed file already went through
    [get_module_name_from_file]. *)
Theorem unused_report_raises_iff_catalog_raises : forall e,
  UnusedModules.report sup ext proj = PyErr e <->
  UnusedModules.collect_all_modules sup proj = PyErr e.
Proof.
  intros e. destruct (UnusedModules.collect_all_modules sup proj) as [mods|e'] eqn:Hc.
  - split; [| discriminate]. intros H.
    destruct (UnusedModules.unused_among mods (UnusedModules.collect_all_imports sup ext proj))
      as [|u0 us] eqn:Eu.
    + unfold UnusedModules.report, UnusedModules.find_unused_modules in H.
      rewrite Hc in H. cbn [py_bind] in H. rewrite Eu in H. discriminate H.
    + destruct (report_body_ok mods Hc) as [mid Hr]; [rewrite Eu; discriminate |].
      rewrite Hr in H. discriminate H.
  - unfold UnusedModules.report, UnusedModules.find_unused_modules. rewrite Hc.
    cbn [py_bind]. split; intros H; injection H as ->; reflexivity.
Qed.

(** X12: the unused-modules report is the empty string exactly when no
    module is unused; otherwise it starts with ["Found N unused modules:"]
    and two newlines and ends with a newline and
    ["Total unused modules: N"], [N] the number of unused modules. *)
Theorem unused_report_shape : forall u,
  UnusedModules.find_unused_modules sup ext proj = PyOk u ->
  (UnusedModules.report sup ext proj = PyOk ""%string <-> u = []) /\
  (u <> [] -> exists mid,
    UnusedModules.report sup ext proj =
    PyOk ("Found " +:+ Py.str_of_nat (length u) +:+ " unused modules:" +:+
          UnusedModules.nl +:+ UnusedModules.nl +:+ mid +:+ UnusedModules.nl +:+
          "Total unused modules: " +:+ Py.str_of_nat (length u))%string).
Proof.
  intros u Hu. unfold UnusedModules.find_unused_modules in Hu.
  destruct (UnusedModules.collect_all_modules sup proj) as [mods|e] eqn:Hc; [| discriminate Hu].
  cbn [py_bind] in Hu. injection Hu as Hu.
  assert (Hne : u <> [] -> exists mid,
    UnusedModules.report sup ext proj =
    PyOk ("Found " +:+ Py.str_of_nat (length u) +:+ " unused modules:" +:+
          UnusedModules.nl +:+ UnusedModules.nl +:+ mid +:+ UnusedModules.nl +:+
          "Total unused modules: " +:+ Py.str_of_nat (length u))%string).
  { intros H. subst u. apply report_body_ok; assumption. }
  split; [| exact Hne]. split.
  - intros Hr. destruct u as [|u0 us]; [reflexivity |].
    destruct (Hne ltac:(discriminate)) as [mid Hm]. rewrite Hm in Hr. discriminate Hr.
  - intros ->. unfold UnusedModules.report, UnusedModules.find_unused_modules.
    rewrite Hc. cbn [py_bind]. rewrite Hu. reflexivity.
Qed.

End Report.

(** *** Entry points by project name *)

Lemma contains_empty : forall s, Py.contains ""%string s = true.
Proof. intros []; reflexivity. Qed.

Lemma entry_point_empty_root_name : forall proj f,
  UnusedModules.strip_vendor_prefix (Py.lower (name (project_root proj))) = ""%string ->
  UnusedModules.is_entry_point_file proj f = true.
Proof.
  intros proj f H. unfold UnusedModules.is_entry_point_file.
  destruct (existsb _ _); [reflexivity |].
  destruct (bool_decide _); [reflexivity |].
  destruct (UnusedModules.is_language_specific_entry_point _ _); [reflexivity |].
  rewrite H, contains_empty. reflexivity.
Qed.

(** X13: when the project root's lowercased name is empty after the
    vendor-prefix strip (the root is ["/"], or its name is exactly ["aws-"],
    ["aws_"], ["amazon-"] or ["amazon_"] in any case), the name test of
    [is_entry_point_file] ([project_root_name in file_stem], with the empty
    string) accepts every file: every file is an entry point,
    [collect_all_modules] is empty and the unused-modules report is the
    empty string. *)
Theorem empty_root_name_all_entry_points : forall sup ext proj,
  UnusedModules.strip_vendor_prefix (Py.lower (name (project_root proj))) = ""%string ->
  (forall f, UnusedModules.is_entry_point_file proj f = true) /\
  UnusedModules.collect_all_modules sup proj = PyOk [] /\
  UnusedModules.report sup ext proj = PyOk ""%string.
Proof.
  intros sup ext proj H.
  assert (He : forall f, UnusedModules.is_entry_point_file proj f = true)
    by (intros f; apply entry_point_empty_root_name; exact H).
  assert (Hc : UnusedModules.collect_all_modules sup proj = PyOk []).
  { unfold UnusedModules.collect_all_modules. apply py_fold_keep.
    intros f _. rewrite He. destruct (UnusedModules.is_test_file f); reflexivity. }
  split; [exact He |]. split; [exact Hc |].
  unfold UnusedModules.report, UnusedModules.find_unused_modules. rewrite Hc. reflexivity.
Qed.

(** *** Order of the report's listing *)



(* ------------------------------------------------------------------ *)
(** ** The further properties on concrete inputs *)

Lemma build_headers_tree_covers_headings_witness :
  exists forest,
    build_headers_tree [(1, "A"); (2, "B"); (2, "C"); (1, "D")]%string = Some (forest, 4) /\
    concat (map hnode_preorder forest) = [(1, "A"); (2, "B"); (2, "C"); (1, "D")]%string /\
    forallb (fun n => match n with HNode _ l _ => 0 <? l end) forest = true /\
    forallb hnode_nested forest = true.
Proof.
  apply (build_headers_tree_covers_headings [(1, "A"); (2, "B"); (2, "C"); (1, "D")]%string).
  repeat constructor.
Defined.

Lemma extract_route_path_url_witness :
  extract_route_path ("https://" +:+ "example.com" +:+ "/api/users") = "/api/users"%string /\
  extract_route_path "docs/api" = "docs/api"%string.
Proof.
  apply extract_route_path_url; first [left; reflexivity | discriminate | reflexivity].
Defined.

Lemma contains_route_url_as_path_witness :
  contains_route (Fixtures.mem_fs []) Fixtures.plain_project
    ("http://" +:+ "example.com" +:+ "/api/users") (dp_source Fixtures.text_doc) =
  contains_route (Fixtures.mem_fs []) Fixtures.plain_project "/api/users"
    (dp_source Fixtures.text_doc).
Proof.
  apply contains_route_url_as_path; first [right; reflexivity | discriminate | reflexivity].
Defined.

Lemma contains_string_skips_readme_witness :
  exists f, f ∈ [Fixtures.readme; Fixtures.conf_src] /\
    Py.startswith (name f) "README" = false /\
    (f ∉ configured_doc_paths Fixtures.root None) /\
    Py.contains "FOO" (fs_read_text Fixtures.readme_fs f) = true.
Proof.
  apply (contains_string_skips_readme Fixtures.readme_fs Fixtures.root None
           [Fixtures.readme; Fixtures.conf_src] "FOO" (dp_source Fixtures.text_doc)).
  vm_compute. reflexivity.
Defined.

Lemma from_project_markdown_files_witness :
  exists d f, d ∈ [Fixtures.docs_dir] /\
    ((fs_is_file Fixtures.docs_fs d = true /\ f = d) \/
     (fs_is_file Fixtures.docs_fs d = false /\ fs_is_dir Fixtures.docs_fs d = true /\
      f ∈ fs_walk_files Fixtures.docs_fs d)) /\
    DocFile (Fixtures.docs_dir ++ ["a.md"%string]) = DocFile f /\
    (Py.lower (suffix f) = ".md"%string \/ Py.lower (suffix f) = ".markdown"%string).
Proof.
  apply from_project_markdown_files.
  apply list_elem_of_In. vm_compute. left. reflexivity.
Defined.


Lemma collect_all_modules_last_file_wins_witness :
  UnusedModules.collect_all_modules Fixtures.py_only Fixtures.twin_project =
    PyOk [("core.util"%string, Fixtures.util_b)] /\
  (("core.util"%string, Fixtures.util_a) ∈ [("core.util"%string, Fixtures.util_b)] <->
   exists a b, project_files Fixtures.twin_project = a ++ Fixtures.util_a :: b /\
     qualifies Fixtures.py_only Fixtures.twin_project Fixtures.util_a /\
     UnusedModules.get_module_name_from_file Fixtures.twin_project Fixtures.util_a =
       PyOk "core.util"%string /\
     forall g, g ∈ b -> qualifies Fixtures.py_only Fixtures.twin_project g ->
       UnusedModules.get_module_name_from_file Fixtures.twin_project g <> PyOk "core.util"%string).
Proof.
  assert (H : UnusedModules.collect_all_modules Fixtures.py_only Fixtures.twin_project =
                PyOk [("core.util"%string, Fixtures.util_b)]) by (vm_compute; reflexivity).
  split; [exact H |].
  exact (collect_all_modules_last_file_wins Fixtures.py_only Fixtures.twin_project _ H
           "core.util"%string Fixtures.util_a).
Defined.

Lemma unused_report_shape_witness :
  UnusedModules.find_unused_modules Fixtures.py_only Fixtures.no_imports Fixtures.twin_project =
    PyOk [("core.util"%string, Fixtures.util_b)] /\
  exists mid,
    UnusedModules.report Fixtures.py_only Fixtures.no_imports Fixtures.twin_project =
    PyOk ("Found " +:+ Py.str_of_nat 1 +:+ " unused modules:" +:+
          UnusedModules.nl +:+ UnusedModules.nl +:+ mid +:+ UnusedModules.nl +:+
          "Total unused modules: " +:+ Py.str_of_nat 1)%string.
Proof.
  assert (H : UnusedModules.find_unused_modules Fixtures.py_only Fixtures.no_imports
                Fixtures.twin_project = PyOk [("core.util"%string, Fixtures.util_b)])
    by (vm_compute; reflexivity).
  split; [exact H |].
  apply (proj2 (unused_report_shape Fixtures.py_only Fixtures.no_imports Fixtures.twin_project
                  _ H)).
  discriminate.
Defined.

Lemma empty_root_name_all_entry_points_witness :
  (forall f, UnusedModules.is_entry_point_file Fixtures.aws_project f = true) /\
  UnusedModules.collect_all_modules Fixtures.py_only Fixtures.aws_project = PyOk [] /\
  UnusedModules.report Fixtures.py_only Fixtures.no_imports Fixtures.aws_project =
    PyOk ""%string.
Proof.
  apply empty_root_name_all_entry_points. vm_compute. reflexivity.
Defined.
